(** * cutserve: the event detection engine of the Roundnet condenser

    A shallow embedding of [core/config.py], [core/utils.py] and
    [core/state_machine.py], and the properties of the engine that the
    specification states about them.

    Modelling conventions.
    - A Python [float] is an exact rational of [Q]: the arithmetic of the
      engine is read without rounding, infinities or NaN.  Two floats are
      the same value when they are [==] (Qeq).
    - A Python [int] is an unbounded [Z]; a NumPy [int32] is a [Z] kept in
      the 32-bit signed range, with what NumPy does outside it written out.
    - A method that mutates [self] takes the object and returns the new one;
      a method that can raise returns a sum whose left side is the exception.
    - [print] under [debug_mode] only writes to the console and is left out. *)

From Stdlib Require Import ZArith QArith Qround Qabs Lqa Lia List String Bool.
From Stdlib Require Import Permutation.
Import ListNotations.
Open Scope Q_scope.

(* ================================================================== *)
(** ** Python primitives used by the engine *)
(* ================================================================== *)

Module Py.

(** The exceptions the modelled code can raise. *)
Inductive exn : Type :=
| ValueError (msg : string)
| ZeroDivisionError
| OverflowError.

Definition result (A : Type) : Type := (exn + A)%type.

(** [a < b] on floats. *)
Definition ltb (a b : Q) : bool := negb (Qle_bool b a).
(** [a <= b] on floats. *)
Definition leb (a b : Q) : bool := Qle_bool a b.

(** [max(a, b)]: the builtin keeps its first argument unless a later one
    is strictly greater. *)
Definition max (a b : Q) : Q := if ltb a b then b else a.

(** [min(a, b)]: the builtin keeps its first argument unless a later one
    is strictly smaller. *)
Definition min (a b : Q) : Q := if ltb b a then b else a.

(** [int(x)] on a float, and the C cast behind [astype]: the fractional
    part is dropped, that is, truncation toward zero. *)
Definition int (x : Q) : Z := Z.quot (Qnum x) (Zpos (Qden x)).

(** [sum(xs)]: a left fold that starts from the integer 0. *)
Definition sum (xs : list Q) : Q := fold_left Qplus xs 0.

(** [len(xs)]. *)
Definition len {A : Type} (xs : list A) : Z := Z.of_nat (List.length xs).

End Py.

(* ================================================================== *)
(** ** core/config.py *)
(* ================================================================== *)

(** The tunable parameters of [Config] that the engine reads (paths, colours
    and the pose-model options play no part in it). *)
Record Config : Type := mkConfig {
  process_fps : Q;
  process_width : Z;
  skip_frames : Z;
  inference_batch_size : Z;
  pre_serve_buffer : Q;
  post_point_buffer : Q;
  min_occupied_zones : Z;
  min_hold_duration : Q;
  min_point_duration : Q;
  min_low_energy_duration : Q;
  base_sensitivity : Q;
  min_dynamic_threshold : Q;
  max_dynamic_threshold : Q;
  rally_energy_req : Q;
  walk_energy_cap : Q;
  energy_smoothing_factor : Q;
  debug_mode : bool
}.

(** [DEFAULT_CONFIG = Config()]: the field defaults of the dataclass. *)
Definition DEFAULT_CONFIG : Config := {|
  process_fps := 30;
  process_width := 640;
  skip_frames := 2;
  inference_batch_size := 4;
  pre_serve_buffer := 4;
  post_point_buffer := -1;
  min_occupied_zones := 2;
  min_hold_duration := 2.5;
  min_point_duration := 2.5;
  min_low_energy_duration := 2.5;
  base_sensitivity := 15;
  min_dynamic_threshold := 60;
  max_dynamic_threshold := 60;
  rally_energy_req := 80;
  walk_energy_cap := 55;
  energy_smoothing_factor := 0.3;
  debug_mode := true
|}.

(** [Config.__post_init__]: the checks run when a configuration is built;
    the first failing one raises. *)
Definition post_init (c : Config) : Py.result Config :=
  if Py.leb (process_fps c) 0 then
    inl (Py.ValueError "process_fps must be > 0")
  else if (skip_frames c <? 0)%Z then
    inl (Py.ValueError "skip_frames must be >= 0")
  else if (inference_batch_size c <? 1)%Z then
    inl (Py.ValueError "inference_batch_size must be >= 1")
  else if (process_width c <? 100)%Z then
    inl (Py.ValueError "process_width must be >= 100")
  else if negb (Py.ltb 0 (energy_smoothing_factor c)
                && Py.leb (energy_smoothing_factor c) 1) then
    inl (Py.ValueError "energy_smoothing_factor must be between 0 and 1")
  else if Py.ltb (max_dynamic_threshold c) (min_dynamic_threshold c) then
    inl (Py.ValueError "min_dynamic_threshold must be <= max_dynamic_threshold")
  else inr c.

(* ================================================================== *)
(** ** core/utils.py *)
(* ================================================================== *)

(** *** ZoneManager *)

(** A zone polygon: the rows of an [int32] array of shape (n, 2). *)
Definition Zone : Type := list (Z * Z).

Record ZoneManager : Type := mkZoneManager {
  zones : list Zone;
  scaled_zones : list Zone;
  scale_factor : Q
}.

(** [ZoneManager.__init__]. *)
Definition ZoneManager_init : ZoneManager :=
  {| zones := []; scaled_zones := []; scale_factor := 1 |}.

Definition int32_min : Z := (- 2 ^ 31)%Z.
Definition int32_max : Z := (2 ^ 31 - 1)%Z.

Definition in_int32 (z : Z) : bool :=
  ((int32_min <=? z) && (z <=? int32_max))%Z.

Definition zone_in_int32 (zone : Zone) : bool :=
  forallb (fun p => in_int32 (fst p) && in_int32 (snd p)) zone.

(** [np.array(zone, dtype=np.int32)] on a list of integer pairs: the same
    rows, or [OverflowError] when an integer does not fit (NumPy 2). *)
Definition np_array_int32 (zone : list (Z * Z)) : Py.result Zone :=
  if zone_in_int32 zone then inr zone else inl Py.OverflowError.

(** The list comprehension of [load_zones]: the arrays in order, stopping at
    the first conversion that raises. *)
Fixpoint np_arrays (data : list (list (Z * Z))) : Py.result (list Zone) :=
  match data with
  | [] => inr []
  | zone :: rest =>
      match np_array_int32 zone with
      | inl e => inl e
      | inr a =>
          match np_arrays rest with
          | inl e => inl e
          | inr tl => inr (a :: tl)
          end
      end
  end.

(** [ZoneManager.load_zones], from the value [json.load] returned: an array
    of arrays of integer coordinate pairs.  Nothing else is checked. *)
Definition load_zones (zm : ZoneManager) (data : list (list (Z * Z)))
  : Py.result ZoneManager :=
  match np_arrays data with
  | inl e => inl e
  | inr zs =>
      inr {| zones := zs;
             scaled_zones := scaled_zones zm;
             scale_factor := scale_factor zm |}
  end.

(** [.astype(np.int32)] on a float64: the C cast truncates toward zero; a
    value outside the 32-bit range is not defined by C and comes out as the
    smallest [int32] on x86-64. *)
Definition astype_int32 (x : Q) : Z :=
  let t := Py.int x in
  if in_int32 t then t else int32_min.

(** [(zone * scale_factor).astype(np.int32)]: every coordinate of every
    vertex is multiplied by the factor and cast. *)
Definition scale_zone (factor : Q) (zone : Zone) : Zone :=
  map (fun p => (astype_int32 (inject_Z (fst p) * factor),
                 astype_int32 (inject_Z (snd p) * factor))) zone.

(** [ZoneManager.scale_zones]: [target_width / original_width] is the true
    division of two ints and raises on a zero divisor. *)
Definition scale_zones (zm : ZoneManager) (original_width target_width : Z)
  : Py.result ZoneManager :=
  if (original_width =? 0)%Z then inl Py.ZeroDivisionError
  else
    let factor := inject_Z target_width / inject_Z original_width in
    inr {| zones := zones zm;
           scaled_zones := map (scale_zone factor) (zones zm);
           scale_factor := factor |}.

(** *** EnergyCalculator (the smoothing part) *)

Record EnergyCalculator : Type := mkEnergyCalculator {
  ec_config : Config;
  prev_skeletons : list (Q * Q);
  smooth_energy : Q;
  ec_scale_factor : Q
}.

(** [EnergyCalculator.__init__]. *)
Definition EnergyCalculator_init (c : Config) : EnergyCalculator :=
  {| ec_config := c; prev_skeletons := []; smooth_energy := 0;
     ec_scale_factor := 1 |}.

(** [EnergyCalculator.update_smooth]: returns the new smoothed energy and
    the calculator that stores it. *)
Definition update_smooth (ec : EnergyCalculator) (raw_energy : Q)
  : Q * EnergyCalculator :=
  let alpha := energy_smoothing_factor (ec_config ec) in
  let s := (raw_energy * alpha) + (smooth_energy ec * (1 - alpha)) in
  (s, {| ec_config := ec_config ec;
         prev_skeletons := prev_skeletons ec;
         smooth_energy := s;
         ec_scale_factor := ec_scale_factor ec |}).


(** *** Threshold calibration *)

(** [clamp(value, min_val, max_val)]. *)
Definition clamp (value min_val max_val : Q) : Q :=
  Py.max min_val (Py.min value max_val).

(** [calculate_dynamic_threshold]. *)
Definition calculate_dynamic_threshold
  (baseline_readings : list Q) (base_sens min_threshold max_threshold : Q) : Q :=
  let noise_floor :=
    match baseline_readings with
    | [] => 10
    | _ :: _ => Py.sum baseline_readings / inject_Z (Py.len baseline_readings)
    end in
  let raw_threshold := noise_floor + base_sens in
  clamp raw_threshold min_threshold max_threshold.

(* ================================================================== *)
(** ** core/state_machine.py *)
(* ================================================================== *)

Inductive GameState : Type :=
| SEARCHING
| LOCKED
| PROBATION
| RALLY.

Record ClipInfo : Type := mkClipInfo {
  start : Q;
  end_ : Q;
  tag : string;
  confidence : string;
  peak_energy : Z
}.

Record StateMachineContext : Type := mkContext {
  state : GameState;
  frames_held : Z;
  low_energy_frames : Z;
  serve_time : Q;
  clip_peak_energy : Q;
  baseline_readings : list Q;
  dynamic_threshold : Q
}.

(** [StateMachineContext()]: the field defaults. *)
Definition StateMachineContext_init : StateMachineContext :=
  {| state := SEARCHING; frames_held := 0; low_energy_frames := 0;
     serve_time := 0; clip_peak_energy := 0; baseline_readings := [];
     dynamic_threshold := 40 |}.

(** Assignments to one attribute of the context. *)
Definition set_state (v : GameState) (c : StateMachineContext) :=
  mkContext v (frames_held c) (low_energy_frames c) (serve_time c)
            (clip_peak_energy c) (baseline_readings c) (dynamic_threshold c).
Definition set_frames_held (v : Z) (c : StateMachineContext) :=
  mkContext (state c) v (low_energy_frames c) (serve_time c)
            (clip_peak_energy c) (baseline_readings c) (dynamic_threshold c).
Definition set_low_energy_frames (v : Z) (c : StateMachineContext) :=
  mkContext (state c) (frames_held c) v (serve_time c)
            (clip_peak_energy c) (baseline_readings c) (dynamic_threshold c).
Definition set_serve_time (v : Q) (c : StateMachineContext) :=
  mkContext (state c) (frames_held c) (low_energy_frames c) v
            (clip_peak_energy c) (baseline_readings c) (dynamic_threshold c).
Definition set_clip_peak_energy (v : Q) (c : StateMachineContext) :=
  mkContext (state c) (frames_held c) (low_energy_frames c) (serve_time c)
            v (baseline_readings c) (dynamic_threshold c).
Definition set_baseline_readings (v : list Q) (c : StateMachineContext) :=
  mkContext (state c) (frames_held c) (low_energy_frames c) (serve_time c)
            (clip_peak_energy c) v (dynamic_threshold c).
Definition set_dynamic_threshold (v : Q) (c : StateMachineContext) :=
  mkContext (state c) (frames_held c) (low_energy_frames c) (serve_time c)
            (clip_peak_energy c) (baseline_readings c) v.

(** [ClipClassifier.classify]. *)
Definition classify (cfg : Config) (duration peak : Q) : string * string :=
  if Py.ltb (rally_energy_req cfg) peak then ("Rally", "High")%string
  else if Py.ltb peak (walk_energy_cap cfg) then ("Noise", "Low")%string
  else ("Serve", "Medium")%string.

Record StateMachine : Type := mkStateMachine {
  config : Config;
  fps : Q;
  ctx : StateMachineContext;
  clips : list ClipInfo;
  frames_start_needed : Z;
  frames_override_needed : Z;
  frames_end_needed : Z
}.

(** [StateMachine.__init__]. *)
Definition StateMachine_init (cfg : Config) (fps : Q) : StateMachine :=
  {| config := cfg;
     fps := fps;
     ctx := StateMachineContext_init;
     clips := [];
     frames_start_needed := Py.int (min_hold_duration cfg * fps);
     frames_override_needed := Py.int (1 * fps);
     frames_end_needed := Py.int (min_low_energy_duration cfg * fps) |}.

(** [StateMachine._save_clip]: reads the context, changes nothing. *)
Definition _save_clip (cfg : Config) (c : StateMachineContext) (end_time : Q)
  : ClipInfo :=
  let clip_start := Py.max 0 (serve_time c - pre_serve_buffer cfg) in
  let clip_end := end_time in
  let duration := clip_end - clip_start in
  let '(tag, confidence) := classify cfg duration (clip_peak_energy c) in
  {| start := clip_start;
     end_ := clip_end;
     tag := tag;
     confidence := confidence;
     peak_energy := Py.int (clip_peak_energy c) |}.

Section Update.

Variable sm : StateMachine.
Variables (timestamp : Q) (active_zones : Z) (smooth : Q)
          (num_skeletons : Z) (logic_step : Z).

Let cfg := config sm.

(** The peak of the smoothed energy, followed in PROBATION and RALLY. *)
Definition track_peak (c : StateMachineContext) : StateMachineContext :=
  match state c with
  | PROBATION | RALLY =>
      set_clip_peak_energy (Py.max (clip_peak_energy c) smooth) c
  | _ => c
  end.

(** The global override: a force cut when the players are back in their
    zones for one second during a rally. *)
Definition global_override (c : StateMachineContext)
  : option ClipInfo * StateMachineContext :=
  match state c with
  | RALLY =>
      if (active_zones >=? min_occupied_zones cfg)%Z then
        let c := set_frames_held (frames_held c + logic_step) c in
        if (frames_held c >=? frames_override_needed sm)%Z then
          let completed_clip := _save_clip cfg c (timestamp - 1) in
          let c := set_state LOCKED c in
          let c := set_frames_held (frames_start_needed sm) c in
          let c := set_baseline_readings [] c in
          (Some completed_clip, c)
        else (None, c)
      else (None, set_frames_held 0 c)
  | _ => (None, c)
  end.

(** The [if]/[elif] chain on the state the context has after the override. *)
Definition state_step (completed_clip : option ClipInfo)
  (c : StateMachineContext) : option ClipInfo * StateMachineContext :=
  match state c with
  | SEARCHING =>
      if (active_zones >=? min_occupied_zones cfg)%Z then
        let c := set_frames_held (frames_held c + logic_step) c in
        let c := set_baseline_readings (baseline_readings c ++ [smooth]) c in
        if (frames_held c >=? frames_start_needed sm)%Z then
          (completed_clip, set_state LOCKED c)
        else (completed_clip, c)
      else
        let c := set_frames_held 0 c in
        let c := set_baseline_readings [] c in
        (completed_clip, c)
  | LOCKED =>
      let c := set_baseline_readings (baseline_readings c ++ [smooth]) c in
      if (active_zones <? min_occupied_zones cfg)%Z then
        let c := set_dynamic_threshold
                   (calculate_dynamic_threshold
                      (baseline_readings c)
                      (base_sensitivity cfg)
                      (min_dynamic_threshold cfg)
                      (max_dynamic_threshold cfg)) c in
        let c := set_serve_time timestamp c in
        let c := set_state PROBATION c in
        let c := set_frames_held 0 c in
        let c := set_clip_peak_energy 0 c in
        (completed_clip, c)
      else (completed_clip, c)
  | PROBATION =>
      let current_duration := timestamp - serve_time c in
      let c :=
        if Py.ltb smooth (dynamic_threshold c) then
          set_low_energy_frames (low_energy_frames c + logic_step) c
        else set_low_energy_frames 0 c in
      if Py.leb (min_point_duration cfg) current_duration then
        if Py.ltb (dynamic_threshold c) smooth then
          let c := set_state RALLY c in
          let c := set_low_energy_frames 0 c in
          (completed_clip, c)
        else if (low_energy_frames c >=? frames_end_needed sm)%Z then
          let completed_clip :=
            _save_clip cfg c (timestamp + post_point_buffer cfg) in
          let c := set_state SEARCHING c in
          let c := set_frames_held 0 c in
          let c := set_baseline_readings [] c in
          (Some completed_clip, c)
        else (completed_clip, c)
      else (completed_clip, c)
  | RALLY =>
      let c :=
        if (num_skeletons <? 1)%Z then set_low_energy_frames 0 c
        else if Py.ltb smooth (dynamic_threshold c) then
          set_low_energy_frames (low_energy_frames c + logic_step) c
        else set_low_energy_frames 0 c in
      if (low_energy_frames c >=? frames_end_needed sm)%Z then
        let completed_clip :=
          _save_clip cfg c (timestamp + post_point_buffer cfg) in
        let c := set_state SEARCHING c in
        let c := set_frames_held 0 c in
        let c := set_baseline_readings [] c in
        (Some completed_clip, c)
      else (completed_clip, c)
  end.

(** [StateMachine.update]: the returned clip and the machine afterwards.
    A [ClipInfo] is always truthy, so [if completed_clip] tests for
    [None]. *)
Definition update : option ClipInfo * StateMachine :=
  let c := track_peak (ctx sm) in
  let '(completed_clip, c) := global_override c in
  let '(completed_clip, c) := state_step completed_clip c in
  let clips' :=
    match completed_clip with
    | Some clip => clips sm ++ [clip]
    | None => clips sm
    end in
  (completed_clip,
   {| config := config sm;
      fps := fps sm;
      ctx := c;
      clips := clips';
      frames_start_needed := frames_start_needed sm;
      frames_override_needed := frames_override_needed sm;
      frames_end_needed := frames_end_needed sm |}).

End Update.

(** One processed frame, as [main.py] hands it to [update]. *)
Record Frame : Type := mkFrame {
  f_timestamp : Q;
  f_active_zones : Z;
  f_smooth_energy : Q;
  f_num_skeletons : Z;
  f_logic_step : Z
}.

(** [update] called with the readings of a frame. *)
Definition update_frame (sm : StateMachine) (f : Frame)
  : option ClipInfo * StateMachine :=
  update sm (f_timestamp f) (f_active_zones f) (f_smooth_energy f)
         (f_num_skeletons f) (f_logic_step f).

(** The processing loop: [update] on every frame in order. *)
Definition run (sm : StateMachine) (frames : list Frame) : StateMachine :=
  fold_left (fun s f => snd (update_frame s f)) frames sm.

(** The machine states a video can lead to. *)
Definition reachable (cfg : Config) (fps : Q) (sm : StateMachine) : Prop :=
  exists frames, run (StateMachine_init cfg fps) frames = sm.

(* ================================================================== *)
(** ** The specification's vocabulary *)
(* ================================================================== *)

(** The arithmetic mean of a list of readings, as the specification names
    it: the total over the count. *)
Definition arithmetic_mean (xs : list Q) : Q :=
  fold_right Qplus 0 xs / inject_Z (Z.of_nat (List.length xs)).

(** The fixed noise floor used when no reading was collected. *)
Definition fallback_noise_floor : Q := 10.

(** The noise floor of the specification: the mean of the readings, or the
    fallback constant for an empty list. *)
Definition spec_noise_floor (xs : list Q) : Q :=
  match xs with
  | [] => fallback_noise_floor
  | _ :: _ => arithmetic_mean xs
  end.

(** Clamping [x] to the interval [[lo, hi]], as the specification means
    it: [lo] below the interval, [hi] above it, [x] itself inside. *)
Definition clamp_to_interval (x lo hi : Q) : Q :=
  if Qlt_le_dec x lo then lo
  else if Qlt_le_dec hi x then hi
  else x.


(** Zone data with a zero-vertex zone and a two-vertex zone. *)
Definition degenerate_zones : list (list (Z * Z)) :=
  [ []; [(0, 0); (10, 0)]%Z ].

(** Zone data with one triangle. *)
Definition triangle_zone : list (list (Z * Z)) :=
  [ [(5, 7); (9, 1); (2, 6)]%Z ].



(** Timestamps that never go back and never fall below [last]. *)
Fixpoint timestamps_ordered (last : Q) (frames : list Frame) : bool :=
  match frames with
  | [] => true
  | f :: rest =>
      Py.leb last (f_timestamp f) && timestamps_ordered (f_timestamp f) rest
  end.

(** Frames whose logic step is not negative. *)
Definition steps_nonneg (frames : list Frame) : bool :=
  forallb (fun f => (0 <=? f_logic_step f)%Z) frames.

(** What the RALLY branch makes of the low-energy counter on a frame. *)
Definition rally_low_energy_count (c : StateMachineContext)
  (smooth : Q) (num_skeletons logic_step : Z) : Z :=
  if (num_skeletons <? 1)%Z then 0%Z
  else if Py.ltb smooth (dynamic_threshold c)
       then (low_energy_frames c + logic_step)%Z
       else 0%Z.

(** The test of the global override: in RALLY, enough zones are occupied
    and the held-frame counter, with this frame's step, reaches the
    one-second threshold. *)
Definition force_cut_fires (sm : StateMachine) (active_zones logic_step : Z)
  : bool :=
  (active_zones >=? min_occupied_zones (config sm))%Z
  && (frames_held (ctx sm) + logic_step >=? frames_override_needed sm)%Z.

(** Buffers and durations under which a clip cannot end before it starts:
    the pre-serve buffer is not negative, and a point lasts longer than the
    second the force cut takes back and than what a negative post-point
    buffer takes back. *)
Definition buffers_fit (cfg : Config) : bool :=
  Py.leb 0 (pre_serve_buffer cfg)
  && Py.ltb 0 (min_point_duration cfg + post_point_buffer cfg)
  && Py.ltb 1 (min_point_duration cfg).

(** What holds of the machine between two frames of an ordered stream,
    [last] being the timestamp of the frame just processed: the serve time
    is not negative, a rally began at least [min_point_duration] after its
    serve, and every stored clip starts before it ends. *)
Definition clip_invariant (cfg : Config) (last : Q) (sm : StateMachine)
  : Prop :=
  config sm = cfg /\
  0 <= last /\
  0 <= serve_time (ctx sm) /\
  (state (ctx sm) = RALLY ->
   serve_time (ctx sm) + min_point_duration cfg <= last) /\
  Forall (fun clip => start clip < end_ clip) (clips sm).

(* ================================================================== *)
(** ** Frame streams used as examples *)
(* ================================================================== *)

(** The frame of index [i] of a video read every [step] frames at [fps]
    frames per second, as the loop of [main.py] builds it. *)
Definition tick (step : Z) (fps : Q) (zones : Z) (energy : Q) (skeletons : Z)
  (i : nat) : Frame :=
  {| f_timestamp := inject_Z (step * Z.of_nat i) / fps;
     f_active_zones := zones;
     f_smooth_energy := energy;
     f_num_skeletons := skeletons;
     f_logic_step := step |}.

(** [count] consecutive frames from index [first] with the same readings. *)
Definition ticks (step : Z) (fps : Q) (first count : nat)
  (zones : Z) (energy : Q) (skeletons : Z) : list Frame :=
  map (tick step fps zones energy skeletons) (seq first count).

(** A machine with the default configuration on a 30 fps video, read every
    third frame (skip_frames = 2). *)
Definition machine_30fps : StateMachine := StateMachine_init DEFAULT_CONFIG 30.

(** Two zones held over 25 frames (0.0 s to 2.4 s) at energy 20, the serve
    at 2.5 s, then energy 150 until 5.0 s: the machine is in RALLY. *)
Definition rally_stream : list Frame :=
  ticks 3 30 0 25 2 20 2 ++ ticks 3 30 25 1 0 20 2 ++ ticks 3 30 26 25 0 150 2.

(** The set-up and the first serve, at 2.5 s: the machine is in PROBATION. *)
Definition first_serve : list Frame :=
  ticks 3 30 0 25 2 20 2 ++ ticks 3 30 25 1 0 20 2.

(** Scenario A of the specification, with phases of 2.5 s: the rally, then
    2.5 s of low energy that close the clip at 7.5 s. *)
Definition scenario_A : list Frame :=
  rally_stream ++ ticks 3 30 51 25 0 20 2.

(** Scenario A without its last frame. *)
Definition low_energy_rally : list Frame :=
  rally_stream ++ ticks 3 30 51 24 0 20 2.

(** The frame at 7.5 s that closes the clip of scenario A. *)
Definition closing_frame : Frame := tick 3 30 0 20 2 75.

(** After scenario A the players hold two zones again over 25 frames: the
    machine is in LOCKED for the second serve. *)
Definition second_setup : list Frame :=
  scenario_A ++ ticks 3 30 76 25 2 20 2.

(** The second serve, at 10.1 s. *)
Definition second_serve : Frame := tick 3 30 0 20 2 101.

(** During the rally the players are back in two zones for 0.9 s, at low
    energy with one skeleton in view. *)
Definition players_reset : list Frame :=
  rally_stream ++ ticks 3 30 51 9 2 20 1.

(** The next frame, 1.0 s into the reset, with a skeleton in view. *)
Definition reset_frame : Frame := tick 3 30 2 20 1 60.

(** The same frame with no skeleton in view (ankles are still detected). *)
Definition reset_frame_occluded : Frame := tick 3 30 2 20 0 60.

(** The default configuration with a post-point buffer of -10 s. *)
Definition long_trim_config : Config :=
  {| process_fps := 30; process_width := 640; skip_frames := 2;
     inference_batch_size := 4;
     pre_serve_buffer := 4; post_point_buffer := -10;
     min_occupied_zones := 2; min_hold_duration := 2.5;
     min_point_duration := 2.5; min_low_energy_duration := 2.5;
     base_sensitivity := 15; min_dynamic_threshold := 60;
     max_dynamic_threshold := 60; rally_energy_req := 80;
     walk_energy_cap := 55; energy_smoothing_factor := 0.3;
     debug_mode := true |}.

(** A stream whose timestamps go back: a serve at 100 s, a rally from
    102.5 s, then frames stamped from 0 s again at low energy. *)
Definition rewound_stream : list Frame :=
  ticks 3 30 0 25 2 20 2 ++ ticks 3 30 1000 1 0 20 2
  ++ ticks 3 30 1001 25 0 150 2 ++ ticks 3 30 0 25 0 20 2.

(** The default configuration with a point valid after 1 s (the low-energy
    duration stays 2.5 s). *)
Definition short_point_config : Config :=
  {| process_fps := 30; process_width := 640; skip_frames := 2;
     inference_batch_size := 4;
     pre_serve_buffer := 4; post_point_buffer := -1;
     min_occupied_zones := 2; min_hold_duration := 2.5;
     min_point_duration := 1; min_low_energy_duration := 2.5;
     base_sensitivity := 15; min_dynamic_threshold := 60;
     max_dynamic_threshold := 60; rally_energy_req := 80;
     walk_energy_cap := 55; energy_smoothing_factor := 0.3;
     debug_mode := true |}.

(* ================================================================== *)
(** ** core/utils.py: occupancy and raw energy *)
(* ================================================================== *)

Record ZoneStatus : Type := mkZoneStatus {
  active_count : Z;
  occupancy : list bool
}.

(** [occupied[i] = v] on a list; the loops below only use indices of the
    list. *)
Fixpoint list_set {A : Type} (l : list A) (i : nat) (v : A) : list A :=
  match l, i with
  | [], _ => []
  | _ :: t, O => v :: t
  | h :: t, S k => h :: list_set t k v
  end.

(** [sum(occupied)]: each [True] counts for one. *)
Definition sum_bools (l : list bool) : Z :=
  fold_left (fun (acc : Z) (b : bool) => if b then (acc + 1)%Z else (acc + 0)%Z)
            l 0%Z.

Section Occupancy.

(** [ZoneManager._point_in_zone]: OpenCV's [pointPolygonTest] answered
    inside or on the boundary.  The geometric test is OpenCV's and is a
    parameter here. *)
Variable _point_in_zone : Q * Q -> Zone -> bool.

(** The inner loop of [check_occupancy]:
    [for i, zone in enumerate(zones_to_check)], from index [i]. *)
Fixpoint mark_zones (ankle : Q * Q) (zones_to_check : list Zone) (i : nat)
  (occupied : list bool) : list bool :=
  match zones_to_check with
  | [] => occupied
  | zone :: rest =>
      mark_zones ankle rest (S i)
        (if _point_in_zone ankle zone then list_set occupied i true
         else occupied)
  end.

(** [ZoneManager.check_occupancy]. *)
Definition check_occupancy (zm : ZoneManager) (ankles : list (Q * Q))
  : ZoneStatus :=
  let zones_to_check :=
    match scaled_zones zm with
    | [] => zones zm
    | _ :: _ => scaled_zones zm
    end in
  let occupied := repeat false (List.length zones_to_check) in
  let occupied :=
    fold_left (fun occ ankle => mark_zones ankle zones_to_check 0 occ)
              ankles occupied in
  {| active_count := sum_bools occupied; occupancy := occupied |}.

End Occupancy.

(** [EnergyCalculator.set_scale_factor]. *)
Definition set_scale_factor (ec : EnergyCalculator) (scale : Q)
  : EnergyCalculator :=
  {| ec_config := ec_config ec;
     prev_skeletons := prev_skeletons ec;
     smooth_energy := smooth_energy ec;
     ec_scale_factor := scale |}.

(** [EnergyCalculator.reset]. *)
Definition EnergyCalculator_reset (ec : EnergyCalculator) : EnergyCalculator :=
  {| ec_config := ec_config ec;
     prev_skeletons := [];
     smooth_energy := 0;
     ec_scale_factor := ec_scale_factor ec |}.

Section RawEnergy.

(** [np.linalg.norm] of a difference of two points, a non-negative float
    that NumPy computes; a parameter here. *)
Variable norm : Q * Q -> Q.

(** The configuration's [max_skeleton_match_distance] (100.0 by default). *)
Variable max_dist : Q.

(** [dist] in the inner loop of [calculate]. *)
Definition skeleton_dist (curr prev : Q * Q) : Q :=
  norm (fst curr - fst prev, snd curr - snd prev).

(** The inner loop of [calculate], from index [i] of the previous
    skeletons.  [best] is the pair ([min_dist], [best_match]); it is [None]
    while [min_dist] is infinite and [best_match] is [None]. *)
Fixpoint best_match (curr : Q * Q) (prevs : list (Q * Q)) (i : nat)
  (used_indices : list nat) (best : option (Q * nat)) : option (Q * nat) :=
  match prevs with
  | [] => best
  | prev :: rest =>
      if existsb (Nat.eqb i) used_indices then
        best_match curr rest (S i) used_indices best
      else
        let dist := skeleton_dist curr prev in
        let closer :=
          match best with
          | None => true
          | Some (min_dist, _) => Py.ltb dist min_dist
          end in
        if Py.ltb dist max_dist && closer then
          best_match curr rest (S i) used_indices (Some (dist, i))
        else best_match curr rest (S i) used_indices best
  end.

(** The outer loop of [calculate]: the total movement and the indices used,
    the latest first. *)
Fixpoint match_skeletons (current prevs : list (Q * Q))
  (total_movement : Q) (used_indices : list nat) : Q * list nat :=
  match current with
  | [] => (total_movement, used_indices)
  | curr :: rest =>
      match best_match curr prevs 0 used_indices None with
      | Some (min_dist, i) =>
          match_skeletons rest prevs (total_movement + min_dist)
                          (i :: used_indices)
      | None => match_skeletons rest prevs total_movement used_indices
      end
  end.

(** [EnergyCalculator.calculate]: the raw energy and the calculator
    afterwards; on a zero scale factor the division raises, after the
    current skeletons were stored. *)
Definition calculate (ec : EnergyCalculator)
  (current_skeletons : list (Q * Q))
  : (Py.exn * EnergyCalculator) + (Q * EnergyCalculator) :=
  let stored :=
    {| ec_config := ec_config ec;
       prev_skeletons := current_skeletons;
       smooth_energy := smooth_energy ec;
       ec_scale_factor := ec_scale_factor ec |} in
  match prev_skeletons ec, current_skeletons with
  | [], _ => inr (0, stored)
  | _ :: _, [] => inr (0, stored)
  | _ :: _, _ :: _ =>
      let total_movement :=
        fst (match_skeletons current_skeletons (prev_skeletons ec) 0 []) in
      if negb (Qeq_bool (ec_scale_factor ec) 1) then
        if Qeq_bool (ec_scale_factor ec) 0 then
          inl (Py.ZeroDivisionError, stored)
        else inr (total_movement * (1 / ec_scale_factor ec), stored)
      else inr (total_movement, stored)
  end.

End RawEnergy.

(** The distance between points that differ along one axis only, where it
    is the Euclidean one. *)
Definition axis_norm (v : Q * Q) : Q := Qabs (fst v) + Qabs (snd v).

(* ================================================================== *)
(** ** core/state_machine.py: the rest of the interface *)
(* ================================================================== *)

(** [round(x)] to an integer: the nearest one, the even one on a tie. *)
Definition round_half_even (x : Q) : Z :=
  let f := Qfloor x in
  let r := x - inject_Z f in
  if Py.ltb r (1 # 2) then f
  else if Py.ltb (1 # 2) r then (f + 1)%Z
  else if Z.even f then f else (f + 1)%Z.

(** [round(x, 3)]. *)
Definition round3 (x : Q) : Q :=
  inject_Z (round_half_even (x * 1000)) / 1000.

(** The values a clip dictionary holds. *)
Inductive DictValue : Type :=
| VFloat (x : Q)
| VStr (s : string)
| VInt (n : Z).

(** [ClipInfo.to_dict]: the keys in the order of the literal. *)
Definition to_dict (clip : ClipInfo) : list (string * DictValue) :=
  [ ("start"%string, VFloat (round3 (start clip)));
    ("end"%string, VFloat (round3 (end_ clip)));
    ("duration"%string, VFloat (round3 (end_ clip - start clip)));
    ("tag"%string, VStr (tag clip));
    ("confidence"%string, VStr (confidence clip));
    ("peak_energy"%string, VInt (peak_energy clip)) ].

(** [d[key]] on a dictionary kept as an association list. *)
Fixpoint dict_get (d : list (string * DictValue)) (key : string)
  : option DictValue :=
  match d with
  | [] => None
  | (k, v) :: rest => if String.eqb k key then Some v else dict_get rest key
  end.

(** [StateMachine.reset]. *)
Definition StateMachine_reset (sm : StateMachine) : StateMachine :=
  {| config := config sm;
     fps := fps sm;
     ctx := StateMachineContext_init;
     clips := [];
     frames_start_needed := frames_start_needed sm;
     frames_override_needed := frames_override_needed sm;
     frames_end_needed := frames_end_needed sm |}.

(** [StateMachine.get_clips]. *)
Definition get_clips (sm : StateMachine) : list ClipInfo := clips sm.

(** [StateMachine.get_threshold]. *)
Definition get_threshold (sm : StateMachine) : Q := dynamic_threshold (ctx sm).

(** The moves between states that the diagram of [GameState] draws, with
    staying in place and the force cut from RALLY to LOCKED. *)
Definition allowed_move (s s' : GameState) : bool :=
  match s, s' with
  | SEARCHING, (SEARCHING | LOCKED) => true
  | LOCKED, (LOCKED | PROBATION) => true
  | PROBATION, (PROBATION | RALLY | SEARCHING) => true
  | RALLY, (RALLY | LOCKED | SEARCHING) => true
  | _, _ => false
  end.

(** The moves that close a clip. *)
Definition closing_move (s s' : GameState) : bool :=
  match s, s' with
  | PROBATION, SEARCHING => true
  | RALLY, (SEARCHING | LOCKED) => true
  | _, _ => false
  end.

(** A state in which a point is being recorded. *)
Definition in_point (s : GameState) : bool :=
  match s with
  | PROBATION | RALLY => true
  | _ => false
  end.

(** The zones [check_occupancy] tests: the scaled copy when there is one,
    the loaded zones otherwise. *)
Definition checked_zones (zm : ZoneManager) : list Zone :=
  match scaled_zones zm with
  | [] => zones zm
  | _ :: _ => scaled_zones zm
  end.

(** The number of [True] in a list of flags. *)
Definition count_true (l : list bool) : nat :=
  List.length (filter (fun b => b) l).

(** The calculator [calculate] leaves behind: the current skeletons in
    place of the previous ones, the rest unchanged. *)
Definition stored (ec : EnergyCalculator) (current : list (Q * Q))
  : EnergyCalculator :=
  {| ec_config := ec_config ec;
     prev_skeletons := current;
     smooth_energy := smooth_energy ec;
     ec_scale_factor := ec_scale_factor ec |}.


(** The ranges [__post_init__] checks. *)
Definition config_in_range (c : Config) : Prop :=
  0 < process_fps c /\
  (0 <= skip_frames c)%Z /\
  (1 <= inference_batch_size c)%Z /\
  (100 <= process_width c)%Z /\
  0 < energy_smoothing_factor c /\ energy_smoothing_factor c <= 1 /\
  min_dynamic_threshold c <= max_dynamic_threshold c.


(* ================================================================== *)
(** ** main.py: the engine on one detection *)
(* ================================================================== *)

(** [DetectionResult] of [core/detection.py]: the hip centres and the
    ankles of a frame (the raw keypoints only serve the preview). *)
Record DetectionResult : Type := mkDetectionResult {
  skeletons : list (Q * Q);
  ankles : list (Q * Q)
}.

(** The three objects [process_video] drives. *)
Record Engine : Type := mkEngine {
  zone_mgr : ZoneManager;
  energy_calc : EnergyCalculator;
  state_machine : StateMachine
}.

Section Pipeline.

Variable _point_in_zone : Q * Q -> Zone -> bool.
Variable norm : Q * Q -> Q.
Variable max_dist : Q.

(** The body of the loop over a batch in [process_video]: occupancy, raw
    and smoothed energy, then the state machine.  An exception of
    [calculate] leaves the loop. *)
Definition process_detection (eng : Engine) (ts : Q)
  (detection : DetectionResult) (logic_step : Z)
  : Py.exn + (option ClipInfo * Engine) :=
  let zone_status :=
    check_occupancy _point_in_zone (zone_mgr eng) (ankles detection) in
  match calculate norm max_dist (energy_calc eng) (skeletons detection) with
  | inl (e, _) => inl e
  | inr (raw_energy, ec) =>
      let '(smooth, ec) := update_smooth ec raw_energy in
      let '(clip, sm) :=
        update (state_machine eng) ts (active_count zone_status) smooth
               (Py.len (skeletons detection)) logic_step in
      inr (clip, {| zone_mgr := zone_mgr eng;
                    energy_calc := ec;
                    state_machine := sm |})
  end.

(** The loop over the detections of a video, each with its timestamp. *)
Fixpoint process_detections (eng : Engine)
  (items : list (Q * DetectionResult)) (logic_step : Z) : Py.exn + Engine :=
  match items with
  | [] => inr eng
  | (ts, detection) :: rest =>
      match process_detection eng ts detection logic_step with
      | inl e => inl e
      | inr (_, eng') => process_detections eng' rest logic_step
      end
  end.

End Pipeline.

(* ================================================================== *)
(** ** Vocabulary for streams of frames *)
(* ================================================================== *)


(** Every frame has fewer occupied zones than the minimum. *)
Definition below_zone_minimum (cfg : Config) (frames : list Frame) : bool :=
  forallb (fun f => (f_active_zones f <? min_occupied_zones cfg)%Z) frames.

(** Every frame has fewer occupied zones than the minimum, a skeleton in
    view, a smoothed energy below [threshold] and the logic step [s]. *)
Definition quiet_frames (cfg : Config) (threshold : Q) (s : Z)
  (frames : list Frame) : bool :=
  forallb (fun f => (f_active_zones f <? min_occupied_zones cfg)%Z
                    && (1 <=? f_num_skeletons f)%Z
                    && Py.ltb (f_smooth_energy f) threshold
                    && (f_logic_step f =? s)%Z) frames.

(** A threshold within the safety rails of the configuration. *)
Definition within_rails (cfg : Config) (threshold : Q) : Prop :=
  min_dynamic_threshold cfg <= threshold /\
  threshold <= max_dynamic_threshold cfg.

(** A clip whose tag, confidence and integer peak energy agree with the
    cut-offs of the configuration. *)
Definition well_tagged (cfg : Config) (clip : ClipInfo) : Prop :=
  (tag clip = "Rally"%string /\ confidence clip = "High"%string /\
   (Py.int (rally_energy_req cfg) <= peak_energy clip)%Z) \/
  (tag clip = "Noise"%string /\ confidence clip = "Low"%string /\
   (peak_energy clip <= Py.int (walk_energy_cap cfg))%Z) \/
  (tag clip = "Serve"%string /\ confidence clip = "Medium"%string /\
   (Py.int (walk_energy_cap cfg) <= peak_energy clip)%Z /\
   (peak_energy clip <= Py.int (rally_energy_req cfg))%Z).

(* ================================================================== *)
(** ** Facts about the Python primitives *)
(* ================================================================== *)

Lemma ltb_true (a b : Q) : Py.ltb a b = true <-> a < b.
Proof.
  unfold Py.ltb. rewrite negb_true_iff.
  split; intro H.
  - apply Qnot_le_lt. intro Hle. apply Qle_bool_iff in Hle. congruence.
  - destruct (Qle_bool b a) eqn:E; [|reflexivity].
    apply Qle_bool_iff in E. exfalso. apply (Qlt_not_le _ _ H E).
Qed.

Lemma ltb_false (a b : Q) : Py.ltb a b = false <-> b <= a.
Proof.
  unfold Py.ltb. rewrite negb_false_iff. apply Qle_bool_iff.
Qed.

Lemma leb_true (a b : Q) : Py.leb a b = true <-> a <= b.
Proof. apply Qle_bool_iff. Qed.

Lemma leb_false (a b : Q) : Py.leb a b = false <-> b < a.
Proof.
  unfold Py.leb. split; intro H.
  - apply Qnot_le_lt. intro Hle. apply Qle_bool_iff in Hle. congruence.
  - destruct (Qle_bool a b) eqn:E; [|reflexivity].
    apply Qle_bool_iff in E. exfalso. apply (Qlt_not_le _ _ H E).
Qed.

(** Case analysis on a float comparison, with the order fact in context. *)
Ltac case_ltb a b :=
  let E := fresh "E" in
  destruct (Py.ltb a b) eqn:E;
  [apply ltb_true in E | apply ltb_false in E].

Ltac case_leb a b :=
  let E := fresh "E" in
  destruct (Py.leb a b) eqn:E;
  [apply leb_true in E | apply leb_false in E].

Lemma max_lower (a b : Q) : a <= Py.max a b /\ b <= Py.max a b.
Proof. unfold Py.max. case_ltb a b; split; lra. Qed.

Lemma max_zero_nonneg (x : Q) : 0 <= Py.max 0 x.
Proof. apply max_lower. Qed.

Lemma int_nonneg (x : Q) : 0 <= x -> Py.int x = Qfloor x.
Proof.
  destruct x as [n d]. unfold Py.int, Qfloor, Qle. simpl. intro H.
  apply Z.quot_div_nonneg; lia.
Qed.

Lemma int_nonpos (x : Q) : x <= 0 -> Py.int x = Qceiling x.
Proof.
  destruct x as [n d]. unfold Py.int, Qceiling, Qfloor, Qle. simpl. intro H.
  replace n with (- - n)%Z at 1 by lia.
  rewrite Z.quot_opp_l by lia.
  f_equal. apply Z.quot_div_nonneg; lia.
Qed.


(* ================================================================== *)
(** ** The clip classifier *)
(* ================================================================== *)

(** C9. The classifier answers Rally/High when the peak energy exceeds the
    rally threshold, else Noise/Low when the peak is below the walk cap,
    else Serve/Medium; the duration it is given never changes the answer. *)
Theorem classify_by_peak_only (cfg : Config) (d1 d2 p : Q) :
  (rally_energy_req cfg < p ->
     classify cfg d1 p = ("Rally", "High")%string) /\
  (~ rally_energy_req cfg < p -> p < walk_energy_cap cfg ->
     classify cfg d1 p = ("Noise", "Low")%string) /\
  (~ rally_energy_req cfg < p -> ~ p < walk_energy_cap cfg ->
     classify cfg d1 p = ("Serve", "Medium")%string) /\
  classify cfg d1 p = classify cfg d2 p.
Proof.
  unfold classify.
  case_ltb (rally_energy_req cfg) p; case_ltb p (walk_energy_cap cfg);
    repeat split; intros; try reflexivity;
    try (exfalso; lra); try (exfalso; tauto).
Qed.

Lemma classify_by_peak_only_witness :
  classify DEFAULT_CONFIG 3 150 = ("Rally", "High")%string /\
  classify DEFAULT_CONFIG 3 20 = ("Noise", "Low")%string /\
  classify DEFAULT_CONFIG 3 60 = ("Serve", "Medium")%string /\
  classify DEFAULT_CONFIG 3 60 = classify DEFAULT_CONFIG 9 60.
Proof.
  split; [|split; [|split]].
  - apply (proj1 (classify_by_peak_only DEFAULT_CONFIG 3 9 150)).
    reflexivity.
  - apply (proj1 (proj2 (classify_by_peak_only DEFAULT_CONFIG 3 9 20))).
    + intro H; discriminate H.
    + reflexivity.
  - apply (proj1 (proj2 (proj2 (classify_by_peak_only DEFAULT_CONFIG 3 9 60)))).
    + intro H; discriminate H.
    + intro H; discriminate H.
  - apply (proj2 (proj2 (proj2 (classify_by_peak_only DEFAULT_CONFIG 3 9 60)))).
Defined.

(* ================================================================== *)
(** ** The threshold calibrator *)
(* ================================================================== *)

Lemma fold_left_Qplus_acc (xs : list Q) (a : Q) :
  fold_left Qplus xs a == a + fold_right Qplus 0 xs.
Proof.
  revert a. induction xs as [|x xs IH]; intro a; simpl.
  - lra.
  - rewrite IH. lra.
Qed.

Lemma sum_is_total (xs : list Q) : Py.sum xs == fold_right Qplus 0 xs.
Proof. unfold Py.sum. rewrite fold_left_Qplus_acc. lra. Qed.

Lemma clamp_is_clamp_to_interval (x lo hi : Q) :
  lo <= hi -> clamp x lo hi == clamp_to_interval x lo hi.
Proof.
  intro Hle. unfold clamp, clamp_to_interval, Py.max, Py.min.
  destruct (Qlt_le_dec x lo) as [Hlo|Hlo].
  - case_ltb hi x; [exfalso; lra|].
    case_ltb lo x; [exfalso; lra|]. reflexivity.
  - destruct (Qlt_le_dec hi x) as [Hhi|Hhi].
    + case_ltb hi x; [|exfalso; lra].
      case_ltb lo hi; lra.
    + case_ltb hi x; [exfalso; lra|].
      case_ltb lo x; lra.
Qed.

Lemma clamp_to_interval_bounds (x lo hi : Q) :
  lo <= hi -> lo <= clamp_to_interval x lo hi /\ clamp_to_interval x lo hi <= hi.
Proof.
  intro Hle. unfold clamp_to_interval.
  destruct (Qlt_le_dec x lo); [lra|].
  destruct (Qlt_le_dec hi x); lra.
Qed.

Lemma clamp_to_interval_comp (x y lo hi : Q) :
  x == y -> clamp_to_interval x lo hi == clamp_to_interval y lo hi.
Proof.
  intro H. unfold clamp_to_interval.
  destruct (Qlt_le_dec x lo), (Qlt_le_dec y lo); try lra;
    destruct (Qlt_le_dec hi x), (Qlt_le_dec hi y); lra.
Qed.

(** C6. With [min_threshold <= max_threshold], the calibrated threshold is
    the noise floor plus the base sensitivity, clamped to the interval from
    the minimum to the maximum threshold, where the noise floor is the mean
    of the readings or the fallback constant for an empty list; so it always
    lies between the two bounds, both included. *)
Theorem calculate_dynamic_threshold_clamps
  (readings : list Q) (sens lo hi : Q) :
  lo <= hi ->
  calculate_dynamic_threshold readings sens lo hi
    == clamp_to_interval (spec_noise_floor readings + sens) lo hi /\
  lo <= calculate_dynamic_threshold readings sens lo hi /\
  calculate_dynamic_threshold readings sens lo hi <= hi.
Proof.
  intro Hle.
  assert (Heq : calculate_dynamic_threshold readings sens lo hi
                == clamp_to_interval (spec_noise_floor readings + sens) lo hi).
  { unfold calculate_dynamic_threshold.
    rewrite clamp_is_clamp_to_interval by exact Hle.
    destruct readings as [|r rs].
    - reflexivity.
    - apply clamp_to_interval_comp.
      unfold spec_noise_floor, arithmetic_mean, Py.len.
      rewrite sum_is_total. reflexivity. }
  split; [exact Heq|].
  rewrite Heq. apply clamp_to_interval_bounds. exact Hle.
Qed.

Lemma calculate_dynamic_threshold_clamps_witness :
  calculate_dynamic_threshold [20; 30; 40] 15 40 80
    == clamp_to_interval (spec_noise_floor [20; 30; 40] + 15) 40 80 /\
  40 <= calculate_dynamic_threshold [20; 30; 40] 15 40 80 /\
  calculate_dynamic_threshold [20; 30; 40] 15 40 80 <= 80.
Proof.
  apply (calculate_dynamic_threshold_clamps [20; 30; 40] 15 40 80).
  discriminate.
Defined.

(* ================================================================== *)
(** ** Exponential smoothing *)
(* ================================================================== *)

Section Smoothing.

Variable cfg : Config.
Let alpha := energy_smoothing_factor cfg.


Variable ec0 : EnergyCalculator.
Hypothesis ec0_config : ec_config ec0 = cfg.
Variable raw : Q.




Hypothesis alpha_range : 0 < alpha /\ alpha <= 1.





End Smoothing.



(* ================================================================== *)
(** ** The state machine: one call of [update] *)
(* ================================================================== *)

Lemma save_clip_start (cfg : Config) (c : StateMachineContext) (e : Q) :
  start (_save_clip cfg c e) = Py.max 0 (serve_time c - pre_serve_buffer cfg).
Proof. unfold _save_clip. destruct (classify _ _ _). reflexivity. Qed.

Lemma save_clip_end (cfg : Config) (c : StateMachineContext) (e : Q) :
  end_ (_save_clip cfg c e) = e.
Proof. unfold _save_clip. destruct (classify _ _ _). reflexivity. Qed.

Lemma save_clip_class (cfg : Config) (c : StateMachineContext) (e : Q) :
  (tag (_save_clip cfg c e), confidence (_save_clip cfg c e))
  = classify cfg (e - Py.max 0 (serve_time c - pre_serve_buffer cfg))
             (clip_peak_energy c).
Proof. unfold _save_clip. destruct (classify _ _ _). reflexivity. Qed.

Lemma save_clip_peak (cfg : Config) (c : StateMachineContext) (e : Q) :
  peak_energy (_save_clip cfg c e) = Py.int (clip_peak_energy c).
Proof. unfold _save_clip. destruct (classify _ _ _). reflexivity. Qed.

(** Opening a machine into its fields, so that [update] computes on it. *)
Ltac break_machine sm :=
  let cfg := fresh "cfg" in
  let st := fresh "st" in
  destruct sm as [cfg ? [st ? ? ? ? ? ?] ? ? ? ?].

Ltac unfold_update :=
  unfold update_frame, update, track_peak, global_override, state_step,
         rally_low_energy_count.

Ltac step_cbn :=
  cbn -[Z.geb Z.ltb Z.add Py.ltb Py.leb Py.max Py.int _save_clip
        calculate_dynamic_threshold Qminus Qplus app].

Ltac step_cbn_in H :=
  cbn -[Z.geb Z.ltb Z.add Py.ltb Py.leb Py.max Py.int _save_clip
        calculate_dynamic_threshold Qminus Qplus app] in H.

Ltac break_if :=
  match goal with
  | |- context [if ?b then _ else _] =>
      let E := fresh "E" in destruct b eqn:E
  end.

(** The tests of the code, read as order facts. *)
Ltac tests_to_facts :=
  repeat match goal with
  | H : (_ >=? _)%Z = true |- _ => apply Z.geb_le in H
  | H : (_ >=? _)%Z = false |- _ => rewrite Z.geb_leb in H; apply Z.leb_gt in H
  | H : (_ <? _)%Z = true |- _ => apply Z.ltb_lt in H
  | H : (_ <? _)%Z = false |- _ => apply Z.ltb_ge in H
  | H : Py.ltb _ _ = true |- _ => apply ltb_true in H
  | H : Py.ltb _ _ = false |- _ => apply ltb_false in H
  | H : Py.leb _ _ = true |- _ => apply leb_true in H
  | H : Py.leb _ _ = false |- _ => apply leb_false in H
  end.

Ltac step_cbn_all :=
  cbn -[Z.geb Z.ltb Z.add Py.ltb Py.leb Py.max Py.int _save_clip
        calculate_dynamic_threshold Qminus Qplus app] in *.

(** All the paths of one call, each with the facts its tests give. *)
Ltac update_paths :=
  unfold_update; step_cbn_all; repeat (break_if; step_cbn_all);
  tests_to_facts.

(** What [update] never touches. *)
Lemma update_keeps_setup (sm : StateMachine) (t : Q) (z : Z) (e : Q) (k s : Z) :
  let sm' := snd (update sm t z e k s) in
  config sm' = config sm /\ fps sm' = fps sm /\
  frames_start_needed sm' = frames_start_needed sm /\
  frames_override_needed sm' = frames_override_needed sm /\
  frames_end_needed sm' = frames_end_needed sm.
Proof.
  unfold update.
  destruct (global_override _ _ _ _ _) as [r1 c1].
  destruct (state_step _ _ _ _ _ _ _ _) as [r2 c2].
  repeat split.
Qed.

Lemma app_one_inv {A : Type} (l : list A) (a b : A) :
  l ++ [a] = l ++ [b] -> a = b.
Proof. intro H. apply app_inv_head in H. congruence. Qed.

Lemma app_one_neq {A : Type} (l : list A) (a : A) : l ++ [a] <> l.
Proof.
  intro H. apply (f_equal (@List.length A)) in H.
  rewrite length_app in H. simpl in H. lia.
Qed.

(** C10. One call of [update] appends at most one clip, at the end of the
    clip list, and leaves the clips already stored as they were; it returns
    a clip exactly when it appended that clip, and it returns [None] exactly
    when the clip list is unchanged. *)
Theorem update_appends_at_most_one (sm : StateMachine)
  (t : Q) (z : Z) (e : Q) (k s : Z) :
  let r := fst (update sm t z e k s) in
  let sm' := snd (update sm t z e k s) in
  (forall clip, r = Some clip <-> clips sm' = clips sm ++ [clip]) /\
  (r = None <-> clips sm' = clips sm) /\
  firstn (List.length (clips sm)) (clips sm') = clips sm /\
  (List.length (clips sm') <= S (List.length (clips sm)))%nat.
Proof.
  unfold update.
  destruct (global_override _ _ _ _ _) as [r1 c1].
  destruct (state_step _ _ _ _ _ _ _ _) as [r2 c2].
  cbn [fst snd clips].
  destruct r2 as [clip2|].
  - split; [|split; [|split]].
    + intro clip. split; intro H.
      * congruence.
      * f_equal. exact (app_one_inv _ _ _ H).
    + split; intro H; [discriminate|].
      exfalso. exact (app_one_neq _ _ H).
    + rewrite firstn_app, Nat.sub_diag, firstn_all. simpl. apply app_nil_r.
    + rewrite length_app. simpl. lia.
  - split; [|split; [|split]].
    + intro clip. split; intro H; [discriminate|].
      exfalso. symmetry in H. exact (app_one_neq _ _ H).
    + split; reflexivity.
    + apply firstn_all.
    + lia.
Qed.

Lemma update_appends_at_most_one_witness :
  exists clip,
    fst (update_frame (run machine_30fps rally_stream) reset_frame) = None /\
    fst (update_frame (run machine_30fps players_reset) reset_frame)
    = Some clip /\
    clips (snd (update_frame (run machine_30fps players_reset) reset_frame))
    = clips (run machine_30fps players_reset) ++ [clip].
Proof.
  eexists. split; [|split].
  - apply (proj1 (proj2 (update_appends_at_most_one
                           (run machine_30fps rally_stream)
                           (f_timestamp reset_frame) 2 20 1 3))).
    vm_compute. reflexivity.
  - vm_compute. reflexivity.
  - apply (proj1 (update_appends_at_most_one
                    (run machine_30fps players_reset)
                    (f_timestamp reset_frame) 2 20 1 3)).
    vm_compute. reflexivity.
Defined.

(* ================================================================== *)
(** ** LOCKED: the serve *)
(* ================================================================== *)

(** What a call does in LOCKED when the occupied-zone count is below the
    minimum: the threshold is calibrated from the readings collected so far
    and the one of this frame, the serve time is the timestamp, the peak
    energy and the held-frame counter are zero and the machine is in
    PROBATION.  The low-energy counter is not written. *)
Lemma update_locked_serve (sm : StateMachine) (t : Q) (z : Z) (e : Q) (k s : Z) :
  state (ctx sm) = LOCKED ->
  (z < min_occupied_zones (config sm))%Z ->
  let sm' := snd (update sm t z e k s) in
  fst (update sm t z e k s) = None /\
  state (ctx sm') = PROBATION /\
  dynamic_threshold (ctx sm')
  = calculate_dynamic_threshold
      (baseline_readings (ctx sm) ++ [e])
      (base_sensitivity (config sm))
      (min_dynamic_threshold (config sm))
      (max_dynamic_threshold (config sm)) /\
  serve_time (ctx sm') = t /\
  clip_peak_energy (ctx sm') = 0 /\
  frames_held (ctx sm') = 0%Z /\
  low_energy_frames (ctx sm') = low_energy_frames (ctx sm).
Proof.
  intros Hs Hz. break_machine sm. cbn in Hs, Hz. subst.
  update_paths; try lia.
  repeat split.
Qed.

(** C1. After scenario A and a second set-up the machine is in LOCKED with
    a low-energy counter of 75, left by the clip that closed.  The serve
    that follows moves it to PROBATION with the threshold calibrated, the
    serve time recorded, the peak energy and the held-frame counter at
    zero, and the low-energy counter still at 75, not zero. *)
Theorem locked_serve_keeps_low_energy_count :
  let sm := run machine_30fps second_setup in
  let sm' := snd (update_frame sm second_serve) in
  reachable DEFAULT_CONFIG 30 sm /\
  state (ctx sm) = LOCKED /\
  low_energy_frames (ctx sm) = 75%Z /\
  (f_active_zones second_serve < min_occupied_zones (config sm))%Z /\
  state (ctx sm') = PROBATION /\
  dynamic_threshold (ctx sm')
  = calculate_dynamic_threshold
      (baseline_readings (ctx sm) ++ [f_smooth_energy second_serve])
      15 60 60 /\
  serve_time (ctx sm') = f_timestamp second_serve /\
  clip_peak_energy (ctx sm') = 0 /\
  frames_held (ctx sm') = 0%Z /\
  low_energy_frames (ctx sm') = 75%Z.
Proof.
  cbv zeta.
  split; [exists second_setup; reflexivity|].
  vm_compute. repeat split.
Qed.

(** With a point valid after 1 s and the same first video, the stale
    counter closes the second point after 1.0 s of low energy, where the
    same frames after a first serve leave the machine in PROBATION: the
    clip is cut before the low energy lasted [min_low_energy_duration]. *)
Lemma stale_count_cuts_early :
  let low_second := ticks 3 30 102 10 0 20 2 in
  let first_serve := ticks 3 30 0 25 2 20 2 ++ ticks 3 30 25 1 0 20 2 in
  let low_first := ticks 3 30 26 10 0 20 2 in
  let fresh := run (StateMachine_init short_point_config 30)
                   (first_serve ++ low_first) in
  let stale := run (StateMachine_init short_point_config 30)
                   (second_setup ++ [second_serve] ++ low_second) in
  post_init short_point_config = inr short_point_config /\
  state (ctx fresh) = PROBATION /\ low_energy_frames (ctx fresh) = 30%Z /\
  clips fresh = [] /\
  state (ctx stale) = SEARCHING /\ low_energy_frames (ctx stale) = 105%Z /\
  List.length (clips stale) = 2%nat /\
  frames_end_needed (StateMachine_init short_point_config 30) = 75%Z.
Proof. vm_compute. repeat split. Qed.

(* ================================================================== *)
(** ** RALLY: the global override *)
(* ================================================================== *)

(** C2, as the code has it.  In RALLY, when enough zones are occupied and
    the held-frame counter reaches the one-second threshold with this
    frame's step, the call closes the clip with end = timestamp - 1,
    classifies it on the peak energy, stores and returns it, and leaves the
    machine in LOCKED with the held-frame counter at the hold-satisfied
    value; the LOCKED branch of the same call has already put the current
    smoothed energy in the baseline list, which holds that one reading.
    When the occupied-zone count is below the minimum, the held-frame
    counter ends at zero and the override changes no state: the machine
    stays in RALLY with no clip returned, unless the RALLY branch of the
    same call finds the low-energy counter at its threshold and closes the
    clip (end = timestamp + post_point_buffer), going to SEARCHING. *)
Theorem rally_override (sm : StateMachine) (t : Q) (z : Z) (e : Q) (k s : Z) :
  state (ctx sm) = RALLY ->
  let cfg := config sm in
  let r := fst (update sm t z e k s) in
  let sm' := snd (update sm t z e k s) in
  let peak := Py.max (clip_peak_energy (ctx sm)) e in
  let low := rally_low_energy_count (ctx sm) e k s in
  ((min_occupied_zones cfg <= z)%Z ->
   (frames_override_needed sm <= frames_held (ctx sm) + s)%Z ->
   exists clip,
     r = Some clip /\
     end_ clip = t - 1 /\
     start clip = Py.max 0 (serve_time (ctx sm) - pre_serve_buffer cfg) /\
     (tag clip, confidence clip)
     = classify cfg (end_ clip - start clip) peak /\
     peak_energy clip = Py.int peak /\
     clips sm' = clips sm ++ [clip] /\
     state (ctx sm') = LOCKED /\
     frames_held (ctx sm') = frames_start_needed sm /\
     baseline_readings (ctx sm') = [e]) /\
  ((z < min_occupied_zones cfg)%Z ->
   frames_held (ctx sm') = 0%Z /\
   ((low < frames_end_needed sm)%Z ->
      state (ctx sm') = RALLY /\ r = None /\ clips sm' = clips sm) /\
   ((frames_end_needed sm <= low)%Z ->
      state (ctx sm') = SEARCHING /\
      exists clip,
        r = Some clip /\ end_ clip = t + post_point_buffer cfg /\
        clips sm' = clips sm ++ [clip])).
Proof.
  intro Hs. break_machine sm. cbn in Hs. subst.
  cbv zeta. split.
  - intros Hz Hf. update_paths; try lia.
    eexists. split; [reflexivity|].
    rewrite save_clip_end, save_clip_start, save_clip_peak.
    repeat split.
    rewrite <- save_clip_class. reflexivity.
  - intro Hz. update_paths; try lia;
      (split; [reflexivity|]); split; intro Hl; try lia.
    all: try (repeat split; fail).
    all: split; [reflexivity|]; eexists; split; [reflexivity|];
      rewrite save_clip_end; split; reflexivity.
Qed.

Lemma rally_override_witness :
  exists clip,
    fst (update_frame (run machine_30fps players_reset) reset_frame)
    = Some clip /\
    end_ clip = f_timestamp reset_frame - 1.
Proof.
  destruct (proj1 (rally_override (run machine_30fps players_reset)
                     (f_timestamp reset_frame) 2 20 1 3
                     ltac:(vm_compute; reflexivity))
              ltac:(vm_compute; discriminate)
              ltac:(vm_compute; discriminate))
    as (clip & Hr & He & _).
  exists clip. split; [exact Hr | exact He].
Defined.

(** Counterexample to C2 as the specification states it: on the frame that
    completes one second of the players' reset, the force cut leaves the
    reading of that frame in the baseline list, which is not empty; and on
    the last frame of scenario A the occupancy is below the minimum in RALLY
    and the call changes the state, to SEARCHING. *)
Lemma force_cut_baseline_not_empty :
  let sm := run machine_30fps players_reset in
  let sm' := snd (update_frame sm reset_frame) in
  let rally := run machine_30fps low_energy_rally in
  let rally' := snd (update_frame rally closing_frame) in
  (state (ctx sm) = RALLY /\
   force_cut_fires sm (f_active_zones reset_frame) (f_logic_step reset_frame)
   = true /\
   state (ctx sm') = LOCKED /\
   baseline_readings (ctx sm') = [f_smooth_energy reset_frame] /\
   baseline_readings (ctx sm') <> []) /\
  (state (ctx rally) = RALLY /\
   (f_active_zones closing_frame < min_occupied_zones (config rally))%Z /\
   frames_held (ctx rally') = 0%Z /\
   state (ctx rally') = SEARCHING /\
   state (ctx rally') <> state (ctx rally)).
Proof.
  vm_compute. repeat split; discriminate.
Qed.

(* ================================================================== *)
(** ** RALLY: the occlusion shield *)
(* ================================================================== *)

(** The low-energy counter only ever grows by logic steps or goes back to
    zero: with steps that are not negative it is never negative. *)
Lemma update_low_energy_nonneg (sm : StateMachine) (f : Frame) :
  (0 <= f_logic_step f)%Z ->
  (0 <= low_energy_frames (ctx sm))%Z ->
  (0 <= low_energy_frames (ctx (snd (update_frame sm f))))%Z.
Proof.
  intros Hstep Hlow. break_machine sm. destruct f as [t z e k s].
  cbn in Hstep, Hlow. destruct st; update_paths; lia.
Qed.

Lemma run_low_energy_nonneg (frames : list Frame) (sm : StateMachine) :
  steps_nonneg frames = true ->
  (0 <= low_energy_frames (ctx sm))%Z ->
  (0 <= low_energy_frames (ctx (run sm frames)))%Z.
Proof.
  revert sm. induction frames as [|f frames IH]; intros sm Hsteps Hlow.
  - exact Hlow.
  - simpl in Hsteps. apply andb_true_iff in Hsteps as [Hf Hrest].
    apply Z.leb_le in Hf.
    change (run sm (f :: frames)) with (run (snd (update_frame sm f)) frames).
    apply IH; [exact Hrest|].
    apply update_low_energy_nonneg; assumption.
Qed.

(** The occlusion shield on any RALLY state whose low-energy counter is not
    negative. *)
Lemma update_rally_occluded (sm : StateMachine)
  (t : Q) (z : Z) (e : Q) (k s : Z) :
  state (ctx sm) = RALLY ->
  (k < 1)%Z ->
  (0 < frames_end_needed sm)%Z ->
  (0 <= low_energy_frames (ctx sm))%Z ->
  let r := fst (update sm t z e k s) in
  let sm' := snd (update sm t z e k s) in
  (low_energy_frames (ctx sm') <= low_energy_frames (ctx sm))%Z /\
  state (ctx sm') <> SEARCHING /\
  (force_cut_fires sm z s = false ->
     low_energy_frames (ctx sm') = 0%Z /\
     state (ctx sm') = RALLY /\ r = None) /\
  (force_cut_fires sm z s = true ->
     low_energy_frames (ctx sm') = low_energy_frames (ctx sm) /\
     state (ctx sm') = LOCKED /\
     exists clip, r = Some clip /\ end_ clip = t - 1).
Proof.
  intros Hs Hk Hfe Hlow. break_machine sm. cbn in Hs. subst.
  unfold force_cut_fires. cbv zeta.
  update_paths; try lia.
  all: repeat match goal with |- _ /\ _ => split end;
    try lia; try discriminate.
  all: intro Hf;
    try (apply andb_true_iff in Hf as [Hf1 Hf2]; tests_to_facts; lia);
    try (apply andb_false_iff in Hf as [Hf|Hf]; tests_to_facts; lia).
  all: repeat match goal with |- _ /\ _ => split end; try reflexivity.
  all: eexists; split; [reflexivity|apply save_clip_end].
Qed.

(** C7, as the code has it.  Take any state in RALLY that a stream of
    frames with non-negative logic steps leads to, and a positive
    low-energy frame threshold.  A call with no skeleton in view never
    increases the low-energy counter and never closes the clip on sustained
    low energy (it never leads to SEARCHING), whatever the smoothed energy.
    The counter is reset to zero and the machine stays in RALLY with no
    clip returned, unless the global override force-cuts in the same call:
    then the RALLY branch is not run, the counter keeps its value, and the
    clip returned is the force cut (end = timestamp - 1) that leaves the
    machine in LOCKED. *)
Theorem rally_occlusion_shield (cfg : Config) (fps : Q) (frames : list Frame)
  (t : Q) (z : Z) (e : Q) (k s : Z) :
  let sm := run (StateMachine_init cfg fps) frames in
  steps_nonneg frames = true ->
  state (ctx sm) = RALLY ->
  (k < 1)%Z ->
  (0 < frames_end_needed sm)%Z ->
  let r := fst (update sm t z e k s) in
  let sm' := snd (update sm t z e k s) in
  reachable cfg fps sm /\
  (low_energy_frames (ctx sm') <= low_energy_frames (ctx sm))%Z /\
  state (ctx sm') <> SEARCHING /\
  (force_cut_fires sm z s = false ->
     low_energy_frames (ctx sm') = 0%Z /\
     state (ctx sm') = RALLY /\ r = None) /\
  (force_cut_fires sm z s = true ->
     low_energy_frames (ctx sm') = low_energy_frames (ctx sm) /\
     state (ctx sm') = LOCKED /\
     exists clip, r = Some clip /\ end_ clip = t - 1).
Proof.
  intros sm Hsteps Hs Hk Hfe.
  split; [exists frames; reflexivity|].
  apply update_rally_occluded; try assumption.
  apply run_low_energy_nonneg; [exact Hsteps|]. simpl. lia.
Qed.

Lemma rally_occlusion_shield_witness :
  low_energy_frames
    (ctx (snd (update_frame (run machine_30fps players_reset)
                 (tick 3 30 0 20 0 60)))) = 0%Z.
Proof.
  apply (proj1 (proj2 (proj2 (proj2 (rally_occlusion_shield
           DEFAULT_CONFIG 30 players_reset
           (f_timestamp (tick 3 30 0 20 0 60)) 0 20 0 3
           ltac:(vm_compute; reflexivity)
           ltac:(vm_compute; reflexivity)
           ltac:(vm_compute; reflexivity)
           ltac:(vm_compute; reflexivity)))))).
  vm_compute. reflexivity.
Defined.

(** Counterexample to C7 as the specification states it: the state after
    [players_reset] is reachable and in RALLY with a low-energy counter of
    27; the next frame has no skeleton in view and completes the second of
    the players' reset, and after it the counter is still 27, not zero. *)
Lemma occluded_force_cut_keeps_count :
  let sm := run machine_30fps players_reset in
  let sm' := snd (update_frame sm reset_frame_occluded) in
  reachable DEFAULT_CONFIG 30 sm /\
  state (ctx sm) = RALLY /\
  f_num_skeletons reset_frame_occluded = 0%Z /\
  (0 < frames_end_needed sm)%Z /\
  Py.ltb (f_smooth_energy reset_frame_occluded) (dynamic_threshold (ctx sm))
  = true /\
  low_energy_frames (ctx sm) = 27%Z /\
  low_energy_frames (ctx sm') = 27%Z /\
  low_energy_frames (ctx sm') <> 0%Z.
Proof.
  cbv zeta.
  split; [exists players_reset; reflexivity|].
  vm_compute. repeat split; discriminate.
Qed.

(* ================================================================== *)
(** ** Clip boundaries *)
(* ================================================================== *)

Lemma buffers_fit_facts (cfg : Config) :
  buffers_fit cfg = true ->
  0 <= pre_serve_buffer cfg /\
  0 < min_point_duration cfg + post_point_buffer cfg /\
  1 < min_point_duration cfg.
Proof.
  unfold buffers_fit. intro H.
  apply andb_true_iff in H as [H H3]. apply andb_true_iff in H as [H1 H2].
  tests_to_facts. repeat split; assumption.
Qed.

(** Every clip a call returns starts at the serve time less the pre-serve
    buffer, or at zero when that is not positive. *)
Lemma update_clip_start (sm : StateMachine) (f : Frame) (clip : ClipInfo) :
  fst (update_frame sm f) = Some clip ->
  start clip
  = Py.max 0 (serve_time (ctx sm) - pre_serve_buffer (config sm)).
Proof.
  break_machine sm. destruct f as [t z e k s].
  destruct st; update_paths; intro H; try discriminate H;
    injection H as <-; apply save_clip_start.
Qed.

Lemma init_clip_invariant (cfg : Config) (fps : Q) :
  clip_invariant cfg 0 (StateMachine_init cfg fps).
Proof.
  unfold clip_invariant. simpl. repeat split; try lra.
  - intro H. discriminate H.
  - constructor.
Qed.

(** One frame of an ordered stream keeps the invariant. *)
Lemma update_clip_invariant (cfg : Config) (last : Q) (sm : StateMachine)
  (f : Frame) :
  buffers_fit cfg = true ->
  clip_invariant cfg last sm ->
  last <= f_timestamp f ->
  clip_invariant cfg (f_timestamp f) (snd (update_frame sm f)).
Proof.
  intros Hb (Hc & Hl & Hst & Hr & Hcl) Ht.
  apply buffers_fit_facts in Hb as (Hb1 & Hb2 & Hb3).
  break_machine sm. destruct f as [t z e k s].
  cbn in Hc, Hst, Hr, Hcl, Ht. subst.
  unfold clip_invariant.
  destruct st; try (specialize (Hr eq_refl)); update_paths.
  all: repeat match goal with |- _ /\ _ => split end;
    try reflexivity; try lra; try (intro; discriminate); try (intro; lra);
    try assumption.
  all: apply Forall_app; split; [assumption|];
    constructor; [|constructor];
    rewrite save_clip_start, save_clip_end; step_cbn;
    unfold Py.max; break_if; tests_to_facts; try lra.
Qed.

Lemma run_clip_invariant (cfg : Config) (frames : list Frame) :
  forall (last : Q) (sm : StateMachine),
  buffers_fit cfg = true ->
  clip_invariant cfg last sm ->
  timestamps_ordered last frames = true ->
  exists last', clip_invariant cfg last' (run sm frames).
Proof.
  induction frames as [|f frames IH]; intros last sm Hb Hinv Hord.
  - exists last. exact Hinv.
  - simpl in Hord. apply andb_true_iff in Hord as [Hf Hrest].
    apply leb_true in Hf.
    change (run sm (f :: frames)) with (run (snd (update_frame sm f)) frames).
    apply (IH (f_timestamp f)); [exact Hb| |exact Hrest].
    apply update_clip_invariant with (last := last); assumption.
Qed.

(** C5, as the code has it.  Every clip the machine emits starts at
    max(0, serve time - pre_serve_buffer).  It starts before it ends on
    every stream whose timestamps are not negative and never go back,
    when the buffers fit the durations (the pre-serve buffer is not
    negative, min_point_duration exceeds 1 s and exceeds the time a
    negative post_point_buffer takes back), as the defaults do. *)
Theorem clips_start_before_end (cfg : Config) (fps : Q) (frames : list Frame) :
  (forall sm f clip,
     fst (update_frame sm f) = Some clip ->
     start clip
     = Py.max 0 (serve_time (ctx sm) - pre_serve_buffer (config sm))) /\
  (buffers_fit cfg = true ->
   timestamps_ordered 0 frames = true ->
   forall clip,
     In clip (clips (run (StateMachine_init cfg fps) frames)) ->
     start clip < end_ clip).
Proof.
  split; [exact update_clip_start|].
  intros Hb Hord clip Hin.
  destruct (run_clip_invariant cfg frames 0 (StateMachine_init cfg fps)
              Hb (init_clip_invariant cfg fps) Hord)
    as (last' & _ & _ & _ & _ & Hall).
  rewrite Forall_forall in Hall. apply Hall. exact Hin.
Qed.

Lemma clips_start_before_end_witness :
  buffers_fit DEFAULT_CONFIG = true /\
  timestamps_ordered 0 scenario_A = true /\
  exists clip,
    In clip (clips (run machine_30fps scenario_A)) /\ start clip < end_ clip.
Proof.
  split; [reflexivity|]. split; [vm_compute; reflexivity|].
  assert (Hin : exists clip, In clip (clips (run machine_30fps scenario_A))).
  { vm_compute. eexists. left. reflexivity. }
  destruct Hin as [clip Hin]. exists clip. split; [exact Hin|].
  apply (proj2 (clips_start_before_end DEFAULT_CONFIG 30 scenario_A)).
  - reflexivity.
  - vm_compute. reflexivity.
  - exact Hin.
Defined.

(** Counterexample to C5 as the specification states it. With a post-point
    buffer of -10 s, a configuration that [__post_init__] accepts, scenario
    A (whose timestamps only grow) yields a clip from 0 s to -2.5 s. With
    the default configuration, a stream whose timestamps go back yields a
    clip from 96 s to 1.4 s. *)
Lemma clip_can_end_before_start :
  (post_init long_trim_config = inr long_trim_config /\
   timestamps_ordered 0 scenario_A = true /\
   exists clip,
     In clip (clips (run (StateMachine_init long_trim_config 30) scenario_A))
     /\ start clip == 0 /\ end_ clip == - (5 # 2)
     /\ ~ start clip < end_ clip) /\
  (exists clip,
     In clip (clips (run machine_30fps rewound_stream))
     /\ start clip == 96 /\ end_ clip == 7 # 5
     /\ ~ start clip < end_ clip).
Proof.
  split; [split; [reflexivity|split; [vm_compute; reflexivity|]]|].
  - vm_compute. eexists. split; [left; reflexivity|].
    vm_compute. repeat split; discriminate.
  - vm_compute. eexists. split; [left; reflexivity|].
    vm_compute. repeat split; discriminate.
Qed.

(* ================================================================== *)
(** ** Zone loading and scaling *)
(* ================================================================== *)

Lemma np_arrays_in_range (data : list (list (Z * Z))) :
  forallb zone_in_int32 data = true -> np_arrays data = inr data.
Proof.
  induction data as [|zone rest IH]; intro H; simpl in *.
  - reflexivity.
  - apply andb_true_iff in H as [Hz Hrest].
    unfold np_array_int32. rewrite Hz, (IH Hrest). reflexivity.
Qed.

(** C3, as the code has it.  [load_zones] checks no vertex count: zone data
    whose coordinates fit in 32 bits loads without an error and is stored as
    it is, polygons with fewer than 3 vertices and zero-vertex zones
    included; they stay in the zone list, and [scale_zones] then goes on
    with them. *)
Theorem load_zones_keeps_any_polygon (zm : ZoneManager)
  (data : list (list (Z * Z))) :
  forallb zone_in_int32 data = true ->
  exists zm',
    load_zones zm data = inr zm' /\
    zones zm' = data /\
    (forall zone, In zone data -> (List.length zone < 3)%nat ->
                  In zone (zones zm')) /\
    (forall w t : Z, w <> 0%Z ->
       exists zm'', scale_zones zm' w t = inr zm'' /\
                    zones zm'' = data /\
                    List.length (scaled_zones zm'') = List.length data).
Proof.
  intro H. unfold load_zones. rewrite (np_arrays_in_range data H).
  eexists. split; [reflexivity|]. cbn [zones].
  split; [reflexivity|]. split; [intros zone Hin _; exact Hin|].
  intros w t Hw. unfold scale_zones.
  destruct (w =? 0)%Z eqn:E; [apply Z.eqb_eq in E; contradiction|].
  eexists. split; [reflexivity|]. cbn [zones scaled_zones].
  split; [reflexivity|apply length_map].
Qed.

Lemma load_zones_keeps_any_polygon_witness :
  exists zm',
    load_zones ZoneManager_init degenerate_zones = inr zm' /\
    zones zm' = degenerate_zones.
Proof.
  destruct (load_zones_keeps_any_polygon ZoneManager_init degenerate_zones
              ltac:(reflexivity)) as (zm' & Hl & Hz & _).
  exists zm'. split; [exact Hl | exact Hz].
Defined.

(** Counterexample to C3 as the specification states it: zone data with a
    zero-vertex zone and a two-vertex zone loads without an error, and both
    zones are in the zone list afterwards. *)
Lemma load_zones_accepts_empty_zone :
  exists zm',
    load_zones ZoneManager_init degenerate_zones = inr zm' /\
    In [] (zones zm') /\
    In [(0, 0); (10, 0)]%Z (zones zm') /\
    (forall e, load_zones ZoneManager_init degenerate_zones <> inl e).
Proof.
  eexists. split; [reflexivity|]. cbn [zones].
  split; [left; reflexivity|]. split; [right; left; reflexivity|].
  intros e H. discriminate H.
Qed.






(* ================================================================== *)
(** ** The state machine: moves, calibration and the peak *)
(* ================================================================== *)

(** X1. Whatever the frame, a call of [update] only makes a move of the
    state diagram (staying in place and the force cut from RALLY to LOCKED
    included), and it returns a clip exactly on the three moves that close
    one: PROBATION to SEARCHING, RALLY to SEARCHING and RALLY to LOCKED. *)
Theorem update_moves_and_clips (sm : StateMachine)
  (t : Q) (z : Z) (e : Q) (k s : Z) :
  let r := fst (update sm t z e k s) in
  let sm' := snd (update sm t z e k s) in
  allowed_move (state (ctx sm)) (state (ctx sm')) = true /\
  (match r with Some _ => true | None => false end)
  = closing_move (state (ctx sm)) (state (ctx sm')).
Proof.
  break_machine sm. destruct st; update_paths; try lia; split; reflexivity.
Qed.

(** X2. The serve time and the dynamic threshold are written by one move
    only, the serve (LOCKED with the occupied-zone count below the
    minimum), which sets the serve time to the timestamp; every other call
    leaves both as they were, so the threshold is frozen during a point. *)
Theorem update_calibration_frozen (sm : StateMachine)
  (t : Q) (z : Z) (e : Q) (k s : Z) :
  let sm' := snd (update sm t z e k s) in
  let serving :=
    match state (ctx sm) with
    | LOCKED => (z <? min_occupied_zones (config sm))%Z
    | _ => false
    end in
  if serving
  then serve_time (ctx sm') = t /\ state (ctx sm') = PROBATION
  else serve_time (ctx sm') = serve_time (ctx sm) /\
       dynamic_threshold (ctx sm') = dynamic_threshold (ctx sm).
Proof.
  break_machine sm. destruct st; update_paths; try lia; split; reflexivity.
Qed.

(** X3. While a point is recorded (PROBATION or RALLY) the peak energy
    never decreases and is at least the smoothed energy of the frame as
    long as the point goes on; a clip returned by the call carries the
    integer part of the larger of the peak so far and the energy of the
    closing frame. *)
Theorem update_tracks_peak (sm : StateMachine)
  (t : Q) (z : Z) (e : Q) (k s : Z) :
  in_point (state (ctx sm)) = true ->
  let r := fst (update sm t z e k s) in
  let sm' := snd (update sm t z e k s) in
  (in_point (state (ctx sm')) = true ->
   clip_peak_energy (ctx sm) <= clip_peak_energy (ctx sm') /\
   e <= clip_peak_energy (ctx sm')) /\
  (forall clip, r = Some clip ->
   peak_energy clip = Py.int (Py.max (clip_peak_energy (ctx sm)) e)).
Proof.
  intro Hp. break_machine sm. destruct st; try discriminate Hp.
  - update_paths; try lia; split;
      try (intros clip H; try discriminate H; injection H as <-;
           apply save_clip_peak);
      intro H; try discriminate H; apply max_lower.
  - update_paths; try lia; split;
      try (intros clip H; try discriminate H; injection H as <-;
           apply save_clip_peak);
      intro H; try discriminate H; apply max_lower.
Qed.

Lemma update_tracks_peak_witness :
  exists clip,
    fst (update (run machine_30fps low_energy_rally)
                (f_timestamp closing_frame) 0 20 2 3) = Some clip /\
    peak_energy clip
    = Py.int (Py.max (clip_peak_energy
                        (ctx (run machine_30fps low_energy_rally))) 20).
Proof.
  assert (H : exists clip,
             fst (update (run machine_30fps low_energy_rally)
                         (f_timestamp closing_frame) 0 20 2 3) = Some clip).
  { vm_compute. eexists. reflexivity. }
  destruct H as [clip H]. exists clip. split; [exact H|].
  exact (proj2 (update_tracks_peak (run machine_30fps low_energy_rally)
                  (f_timestamp closing_frame) 0 20 2 3
                  ltac:(vm_compute; reflexivity)) clip H).
Defined.



(* ================================================================== *)
(** ** The state machine over a stream of frames *)
(* ================================================================== *)

Lemma run_cons (sm : StateMachine) (f : Frame) (frames : list Frame) :
  run sm (f :: frames) = run (snd (update_frame sm f)) frames.
Proof. reflexivity. Qed.

Lemma run_snoc (sm : StateMachine) (frames : list Frame) (f : Frame) :
  run sm (frames ++ [f]) = snd (update_frame (run sm frames) f).
Proof. unfold run. rewrite fold_left_app. reflexivity. Qed.

Lemma run_keeps_setup (frames : list Frame) (sm : StateMachine) :
  config (run sm frames) = config sm /\ fps (run sm frames) = fps sm /\
  frames_start_needed (run sm frames) = frames_start_needed sm /\
  frames_override_needed (run sm frames) = frames_override_needed sm /\
  frames_end_needed (run sm frames) = frames_end_needed sm.
Proof.
  revert sm. induction frames as [|f frames IH]; intro sm.
  - repeat split.
  - rewrite run_cons.
    destruct (IH (snd (update_frame sm f))) as (H1 & H2 & H3 & H4 & H5).
    destruct (update_keeps_setup sm (f_timestamp f) (f_active_zones f)
                (f_smooth_energy f) (f_num_skeletons f) (f_logic_step f))
      as (G1 & G2 & G3 & G4 & G5).
    unfold update_frame in *.
    rewrite H1, H2, H3, H4, H5. repeat split; assumption.
Qed.




(** X6. A stream in which the occupied-zone count stays below the minimum
    leaves a new machine exactly as it was: in SEARCHING, with its counters
    and baseline list untouched and no clip. *)
Theorem no_occupancy_no_change (cfg : Config) (fps : Q)
  (frames : list Frame) :
  below_zone_minimum cfg frames = true ->
  run (StateMachine_init cfg fps) frames = StateMachine_init cfg fps.
Proof.
  induction frames as [|f frames IH]; intro Hall.
  - reflexivity.
  - simpl in Hall. apply andb_true_iff in Hall as [Hf Hrest].
    rewrite run_cons.
    replace (snd (update_frame (StateMachine_init cfg fps) f))
      with (StateMachine_init cfg fps); [exact (IH Hrest)|].
    destruct f as [t z e k s]. cbn in Hf.
    unfold StateMachine_init, StateMachineContext_init.
    update_paths; try lia; reflexivity.
Qed.

Lemma no_occupancy_no_change_witness :
  run (StateMachine_init DEFAULT_CONFIG 30) (ticks 3 30 0 40 1 150 2)
  = StateMachine_init DEFAULT_CONFIG 30.
Proof.
  apply (no_occupancy_no_change DEFAULT_CONFIG 30).
  vm_compute. reflexivity.
Defined.

Lemma update_clips_cases (sm : StateMachine) (f : Frame) :
  clips (snd (update_frame sm f)) = clips sm \/
  exists clip, fst (update_frame sm f) = Some clip /\
               clips (snd (update_frame sm f)) = clips sm ++ [clip].
Proof.
  unfold update_frame, update.
  destruct (global_override _ _ _ _ _) as [r1 c1].
  destruct (state_step _ _ _ _ _ _ _ _) as [[clip|] c2]; cbn [fst snd clips].
  - right. exists clip. split; reflexivity.
  - left. reflexivity.
Qed.

(** X7. Over any stream the clip list only grows at its end: the clips
    stored before are a prefix of the clips stored after, and at most one
    clip is added per frame. *)
Theorem run_appends_clips (sm : StateMachine) (frames : list Frame) :
  exists added,
    clips (run sm frames) = clips sm ++ added /\
    (List.length added <= List.length frames)%nat.
Proof.
  revert sm. induction frames as [|f frames IH]; intro sm.
  - exists []. split; [symmetry; apply app_nil_r|simpl; lia].
  - rewrite run_cons.
    destruct (IH (snd (update_frame sm f))) as (added & Hadd & Hlen).
    destruct (update_clips_cases sm f) as [H | (clip & _ & H)];
      rewrite H in Hadd.
    + exists added. split; [exact Hadd|simpl; lia].
    + exists (clip :: added). split.
      * rewrite Hadd, <- app_assoc. reflexivity.
      * simpl. lia.
Qed.

Lemma calculate_dynamic_threshold_rails (cfg : Config) (readings : list Q) :
  min_dynamic_threshold cfg <= max_dynamic_threshold cfg ->
  within_rails cfg
    (calculate_dynamic_threshold readings (base_sensitivity cfg)
       (min_dynamic_threshold cfg) (max_dynamic_threshold cfg)).
Proof.
  intro Hle. unfold within_rails, calculate_dynamic_threshold.
  rewrite clamp_is_clamp_to_interval by exact Hle.
  apply clamp_to_interval_bounds. exact Hle.
Qed.

(** What every frame keeps about the threshold. *)
Lemma update_threshold_rails (sm : StateMachine) (f : Frame) :
  min_dynamic_threshold (config sm) <= max_dynamic_threshold (config sm) ->
  (in_point (state (ctx sm)) = true ->
   within_rails (config sm) (dynamic_threshold (ctx sm))) ->
  (dynamic_threshold (ctx sm) = 40 \/
   within_rails (config sm) (dynamic_threshold (ctx sm))) ->
  let sm' := snd (update_frame sm f) in
  (in_point (state (ctx sm')) = true ->
   within_rails (config sm) (dynamic_threshold (ctx sm'))) /\
  (dynamic_threshold (ctx sm') = 40 \/
   within_rails (config sm) (dynamic_threshold (ctx sm'))).
Proof.
  intros Hle Hp Hor. break_machine sm. destruct f as [t z e k s].
  cbn in Hle, Hp, Hor.
  assert (Hcal := fun readings =>
                    calculate_dynamic_threshold_rails cfg readings Hle).
  destruct st; update_paths; try lia; split;
    try (intro H; try discriminate H); auto.
Qed.

(** X8. With [min_dynamic_threshold <= max_dynamic_threshold], as
    [__post_init__] demands, the dynamic threshold of a machine is at any
    moment either the initial 40.0 or a value within the two bounds;
    whenever a point is being recorded (PROBATION or RALLY) it is within
    the bounds. *)
Theorem threshold_stays_in_rails (cfg : Config) (fps : Q)
  (frames : list Frame) :
  min_dynamic_threshold cfg <= max_dynamic_threshold cfg ->
  let sm := run (StateMachine_init cfg fps) frames in
  (in_point (state (ctx sm)) = true ->
   within_rails cfg (dynamic_threshold (ctx sm))) /\
  (dynamic_threshold (ctx sm) = 40 \/
   within_rails cfg (dynamic_threshold (ctx sm))).
Proof.
  intro Hle. cbv zeta.
  induction frames as [|f frames IH] using rev_ind.
  - split; [intro H; discriminate H|left; reflexivity].
  - rewrite run_snoc. destruct IH as [IH1 IH2].
    destruct (run_keeps_setup frames (StateMachine_init cfg fps))
      as (Kc & _). simpl in Kc.
    set (sm := run (StateMachine_init cfg fps) frames) in *.
    rewrite <- Kc in *.
    apply update_threshold_rails; assumption.
Qed.

Lemma threshold_stays_in_rails_witness :
  dynamic_threshold (ctx (run machine_30fps scenario_A)) = 40 \/
  within_rails DEFAULT_CONFIG
    (dynamic_threshold (ctx (run machine_30fps scenario_A))).
Proof.
  exact (proj2 (threshold_stays_in_rails DEFAULT_CONFIG 30 scenario_A
                  ltac:(discriminate))).
Defined.

Lemma int_of_nonneg (x : Q) : 0 <= x -> (0 <= Py.int x)%Z.
Proof.
  intro H. rewrite (int_nonneg x H).
  change 0%Z with (Qfloor 0). apply Qfloor_resp_le. exact H.
Qed.

(** [int] never reverses an order. *)
Lemma int_monotone (x y : Q) : x <= y -> (Py.int x <= Py.int y)%Z.
Proof.
  intro Hxy.
  destruct (Qlt_le_dec x 0) as [Hx|Hx]; destruct (Qlt_le_dec y 0) as [Hy|Hy].
  - rewrite (int_nonpos x), (int_nonpos y) by lra.
    unfold Qceiling. apply Z.opp_le_mono. rewrite !Z.opp_involutive.
    apply Qfloor_resp_le. lra.
  - rewrite (int_nonpos x) by lra.
    apply Z.le_trans with 0%Z; [|apply int_of_nonneg; exact Hy].
    unfold Qceiling. apply Z.opp_nonpos_nonneg.
    change 0%Z with (Qfloor 0). apply Qfloor_resp_le. lra.
  - exfalso. lra.
  - rewrite (int_nonneg x), (int_nonneg y) by lra.
    apply Qfloor_resp_le. exact Hxy.
Qed.

Lemma save_clip_well_tagged (cfg : Config) (c : StateMachineContext) (e : Q) :
  well_tagged cfg (_save_clip cfg c e).
Proof.
  unfold well_tagged.
  assert (Hc := save_clip_class cfg c e).
  rewrite save_clip_peak. unfold classify in Hc.
  case_ltb (rally_energy_req cfg) (clip_peak_energy c).
  - left. injection Hc as -> ->. repeat split.
    apply int_monotone. lra.
  - case_ltb (clip_peak_energy c) (walk_energy_cap cfg).
    + right. left. injection Hc as -> ->. repeat split.
      apply int_monotone. lra.
    + right. right. injection Hc as -> ->.
      repeat split; apply int_monotone; lra.
Qed.

(** What every frame keeps about the stored clips and the peak. *)
Lemma update_clip_facts (sm : StateMachine) (f : Frame) :
  0 <= clip_peak_energy (ctx sm) ->
  Forall (fun clip => 0 <= start clip /\ (0 <= peak_energy clip)%Z /\
                      well_tagged (config sm) clip) (clips sm) ->
  let sm' := snd (update_frame sm f) in
  0 <= clip_peak_energy (ctx sm') /\
  Forall (fun clip => 0 <= start clip /\ (0 <= peak_energy clip)%Z /\
                      well_tagged (config sm) clip) (clips sm').
Proof.
  intros Hpk Hall. break_machine sm. destruct f as [t z e k s].
  cbn in Hpk, Hall.
  assert (Hmax : 0 <= Py.max clip_peak_energy0 e).
  { generalize (max_lower clip_peak_energy0 e). intros [H _]. lra. }
  destruct st; update_paths; try lia; split;
    try assumption; try lra.
  all: apply Forall_app; split; [assumption|];
    constructor; [|constructor];
    rewrite save_clip_start, save_clip_peak;
    (split; [apply max_zero_nonneg|]);
    (split; [apply int_of_nonneg; assumption|apply save_clip_well_tagged]).
Qed.

Lemma run_clip_facts (cfg : Config) (fps : Q) (frames : list Frame) :
  let sm := run (StateMachine_init cfg fps) frames in
  0 <= clip_peak_energy (ctx sm) /\
  Forall (fun clip => 0 <= start clip /\ (0 <= peak_energy clip)%Z /\
                      well_tagged cfg clip) (clips sm).
Proof.
  cbv zeta. induction frames as [|f frames IH] using rev_ind.
  - simpl. split; [lra|constructor].
  - rewrite run_snoc. destruct IH as [IH1 IH2].
    destruct (run_keeps_setup frames (StateMachine_init cfg fps))
      as (Kc & _). simpl in Kc.
    set (sm := run (StateMachine_init cfg fps) frames) in *.
    rewrite <- Kc in *.
    apply update_clip_facts; assumption.
Qed.

(** X9. Whatever the configuration and the stream, the running peak energy
    is never negative, and every stored clip has a start time and an
    integer peak energy that are not negative. *)
Theorem clips_never_negative (cfg : Config) (fps : Q) (frames : list Frame) :
  let sm := run (StateMachine_init cfg fps) frames in
  0 <= clip_peak_energy (ctx sm) /\
  Forall (fun clip => 0 <= start clip /\ (0 <= peak_energy clip)%Z)
         (clips sm).
Proof.
  cbv zeta. destruct (run_clip_facts cfg fps frames) as [Hpk Hall].
  split; [exact Hpk|].
  apply (Forall_impl _ (P := fun clip =>
           0 <= start clip /\ (0 <= peak_energy clip)%Z /\
           well_tagged cfg clip)); [|exact Hall].
  intros clip (H1 & H2 & _). split; assumption.
Qed.

(** X10. Every stored clip is tagged in agreement with its integer peak
    energy: "Rally"/"High" with a peak of at least the integer part of
    rally_energy_req, "Noise"/"Low" with a peak of at most the integer
    part of walk_energy_cap, or "Serve"/"Medium" with a peak between the
    two integer parts; no other tag or confidence is ever stored. *)
Theorem clips_well_tagged (cfg : Config) (fps : Q) (frames : list Frame) :
  Forall (well_tagged cfg) (clips (run (StateMachine_init cfg fps) frames)).
Proof.
  destruct (run_clip_facts cfg fps frames) as [_ Hall].
  apply (Forall_impl _ (P := fun clip =>
           0 <= start clip /\ (0 <= peak_energy clip)%Z /\
           well_tagged cfg clip)); [|exact Hall].
  intros clip (_ & _ & H). exact H.
Qed.

(** X11. [reset] on a machine that processed any stream gives back the
    machine as [__init__] built it, with an empty clip list: a reset
    machine behaves on the next video as a new one. *)
Theorem reset_restores_init (cfg : Config) (fps : Q)
  (frames more : list Frame) :
  let sm := StateMachine_reset (run (StateMachine_init cfg fps) frames) in
  sm = StateMachine_init cfg fps /\
  get_clips sm = [] /\
  run sm more = run (StateMachine_init cfg fps) more.
Proof.
  cbv zeta.
  assert (H : StateMachine_reset (run (StateMachine_init cfg fps) frames)
              = StateMachine_init cfg fps).
  { destruct (run_keeps_setup frames (StateMachine_init cfg fps))
      as (K1 & K2 & K3 & K4 & K5).
    unfold StateMachine_reset. rewrite K1, K2, K3, K4, K5. reflexivity. }
  rewrite H. repeat split.
Qed.

(** One quiet frame in RALLY that leaves the low-energy counter below its
    threshold. *)
Lemma update_quiet_frame (sm : StateMachine) (f : Frame) :
  state (ctx sm) = RALLY ->
  (f_active_zones f < min_occupied_zones (config sm))%Z ->
  (1 <= f_num_skeletons f)%Z ->
  f_smooth_energy f < dynamic_threshold (ctx sm) ->
  (low_energy_frames (ctx sm) + f_logic_step f < frames_end_needed sm)%Z ->
  let sm' := snd (update_frame sm f) in
  state (ctx sm') = RALLY /\
  low_energy_frames (ctx sm')
  = (low_energy_frames (ctx sm) + f_logic_step f)%Z /\
  dynamic_threshold (ctx sm') = dynamic_threshold (ctx sm) /\
  clips sm' = clips sm.
Proof.
  intros Hs Hz Hk He Hl. break_machine sm. destruct f as [t z e k s].
  cbn in Hs, Hz, Hk, He, Hl. subst.
  update_paths; try lia; try lra; repeat split.
Qed.

(** X12. A rally is not cut while the low-energy frames do not add up: from
    any state in RALLY, [n] frames with too few occupied zones, a skeleton
    in view, energy below the threshold and the same logic step [s >= 0]
    leave the machine in RALLY with no new clip and the low-energy counter
    advanced by [n * s], as long as that stays below the low-energy frame
    threshold. *)
Theorem rally_survives_short_lull (sm : StateMachine) (s : Z)
  (frames : list Frame) :
  state (ctx sm) = RALLY ->
  (0 <= s)%Z ->
  quiet_frames (config sm) (dynamic_threshold (ctx sm)) s frames = true ->
  let n := Z.of_nat (List.length frames) in
  (low_energy_frames (ctx sm) + n * s < frames_end_needed sm)%Z ->
  let sm' := run sm frames in
  state (ctx sm') = RALLY /\
  low_energy_frames (ctx sm') = (low_energy_frames (ctx sm) + n * s)%Z /\
  clips sm' = clips sm.
Proof.
  intros Hs Hstep. revert sm Hs.
  induction frames as [|f frames IH]; intros sm Hs Hq n Hl.
  - subst n. simpl. split; [exact Hs|]. split; [lia|reflexivity].
  - simpl in Hq. apply andb_true_iff in Hq as [Hf Hrest].
    apply andb_true_iff in Hf as [Hf Hf4].
    apply andb_true_iff in Hf as [Hf Hf3].
    apply andb_true_iff in Hf as [Hf1 Hf2].
    apply Z.ltb_lt in Hf1. apply Z.leb_le in Hf2. apply ltb_true in Hf3.
    apply Z.eqb_eq in Hf4.
    subst n. simpl List.length in *. rewrite Nat2Z.inj_succ in *.
    set (n := Z.of_nat (List.length frames)) in *.
    assert (Hn : (0 <= n)%Z) by lia.
    assert (Hns : (0 <= n * s)%Z) by nia.
    destruct (update_quiet_frame sm f Hs Hf1 Hf2 Hf3) as (G1 & G2 & G3 & G4).
    { rewrite Hf4. nia. }
    destruct (update_keeps_setup sm (f_timestamp f) (f_active_zones f)
                (f_smooth_energy f) (f_num_skeletons f) (f_logic_step f))
      as (K1 & _ & _ & _ & K5).
    fold (update_frame sm f) in K1, K5.
    cbv zeta. rewrite run_cons.
    destruct (IH (snd (update_frame sm f)) G1) as (H1 & H2 & H3).
    + rewrite K1, G3. exact Hrest.
    + rewrite G2, K5, Hf4. fold n. nia.
    + fold n in H2. split; [exact H1|]. split.
      * rewrite H2, G2, Hf4. nia.
      * rewrite H3. exact G4.
Qed.

Lemma rally_survives_short_lull_witness :
  state (ctx (run (run machine_30fps rally_stream)
                  (ticks 3 30 51 24 0 20 2))) = RALLY.
Proof.
  destruct (rally_survives_short_lull (run machine_30fps rally_stream) 3
              (ticks 3 30 51 24 0 20 2)
              ltac:(vm_compute; reflexivity)
              ltac:(discriminate)
              ltac:(vm_compute; reflexivity)
              ltac:(vm_compute; reflexivity)) as (H & _).
  exact H.
Defined.

(* ================================================================== *)
(** ** Zone occupancy *)
(* ================================================================== *)

Lemma list_set_middle {A : Type} (pre : list A) (a v : A) (post : list A) :
  list_set (pre ++ a :: post) (List.length pre) v = pre ++ v :: post.
Proof.
  induction pre as [|h pre IH]; simpl.
  - reflexivity.
  - rewrite IH. reflexivity.
Qed.

Lemma sum_bools_acc (l : list bool) (acc : Z) :
  fold_left (fun (a : Z) (b : bool) => if b then (a + 1)%Z else (a + 0)%Z)
            l acc
  = (acc + Z.of_nat (count_true l))%Z.
Proof.
  revert acc. unfold count_true.
  induction l as [|b l IH]; intro acc; simpl.
  - lia.
  - rewrite IH. destruct b; simpl List.length; lia.
Qed.

Lemma sum_bools_count (l : list bool) :
  sum_bools l = Z.of_nat (count_true l).
Proof. unfold sum_bools. rewrite sum_bools_acc. lia. Qed.



Section OccupancyFacts.

Variable _point_in_zone : Q * Q -> Zone -> bool.

(** The inner loop turns on the flag of every zone the ankle is in and
    leaves the other flags. *)
Lemma mark_zones_flags (ankle : Q * Q) (zs : list Zone) :
  forall (pre : list bool) (flag : Zone -> bool),
  mark_zones _point_in_zone ankle zs (List.length pre) (pre ++ map flag zs)
  = pre ++ map (fun zone => flag zone || _point_in_zone ankle zone) zs.
Proof.
  induction zs as [|zone zs IH]; intros pre flag; simpl.
  - reflexivity.
  - destruct (_point_in_zone ankle zone) eqn:E.
    + rewrite list_set_middle.
      replace (pre ++ true :: map flag zs)
        with ((pre ++ [true]) ++ map flag zs)
        by (rewrite <- app_assoc; reflexivity).
      replace (S (List.length pre)) with (List.length (pre ++ [true]))
        by (rewrite length_app; simpl; lia).
      rewrite IH, <- app_assoc, orb_true_r. reflexivity.
    + replace (pre ++ flag zone :: map flag zs)
        with ((pre ++ [flag zone]) ++ map flag zs)
        by (rewrite <- app_assoc; reflexivity).
      replace (S (List.length pre)) with (List.length (pre ++ [flag zone]))
        by (rewrite length_app; simpl; lia).
      rewrite IH, <- app_assoc, orb_false_r. reflexivity.
Qed.

Lemma mark_all_ankles (zs : list Zone) (ankles : list (Q * Q)) :
  forall flag : Zone -> bool,
  fold_left (fun occ ankle => mark_zones _point_in_zone ankle zs 0 occ)
            ankles (map flag zs)
  = map (fun zone =>
           flag zone || existsb (fun a => _point_in_zone a zone) ankles) zs.
Proof.
  induction ankles as [|a ankles IH]; intro flag; simpl.
  - apply map_ext. intro zone. rewrite orb_false_r. reflexivity.
  - assert (H := mark_zones_flags a zs [] flag). simpl in H.
    rewrite H, IH. apply map_ext. intro zone.
    rewrite orb_assoc. reflexivity.
Qed.

Lemma repeat_false_map (zs : list Zone) :
  repeat false (List.length zs) = map (fun _ : Zone => false) zs.
Proof.
  induction zs as [|z zs IH]; simpl; [reflexivity|].
  rewrite IH. reflexivity.
Qed.

Lemma check_occupancy_flags (zm : ZoneManager) (ankles : list (Q * Q)) :
  occupancy (check_occupancy _point_in_zone zm ankles)
  = map (fun zone => existsb (fun a => _point_in_zone a zone) ankles)
        (checked_zones zm).
Proof.
  unfold check_occupancy. cbn [occupancy].
  fold (checked_zones zm).
  rewrite repeat_false_map, mark_all_ankles. reflexivity.
Qed.

Lemma check_occupancy_count (zm : ZoneManager) (ankles : list (Q * Q)) :
  active_count (check_occupancy _point_in_zone zm ankles)
  = Z.of_nat (count_true
                (occupancy (check_occupancy _point_in_zone zm ankles))).
Proof. unfold check_occupancy. cbn [active_count occupancy].
  apply sum_bools_count. Qed.




(** X15. [load_zones] replaces the loaded zones only: the scaled copy and
    the scale factor stay as they were, so a manager that had scaled zones
    goes on testing occupancy against the old scaled zones until
    [scale_zones] is called again. *)
Theorem load_zones_keeps_scaled_copy (zm zm' : ZoneManager)
  (data : list (list (Z * Z))) (ankles : list (Q * Q)) :
  load_zones zm data = inr zm' ->
  scaled_zones zm' = scaled_zones zm /\
  scale_factor zm' = scale_factor zm /\
  (scaled_zones zm <> [] ->
   check_occupancy _point_in_zone zm' ankles
   = check_occupancy _point_in_zone zm ankles).
Proof.
  unfold load_zones. destruct (np_arrays data) as [e|zs]; [discriminate|].
  intro H. injection H as <-. cbn [scaled_zones scale_factor].
  split; [reflexivity|]. split; [reflexivity|].
  intro Hne. unfold check_occupancy. cbn [scaled_zones zones].
  destruct (scaled_zones zm); [contradiction|reflexivity].
Qed.

End OccupancyFacts.

Lemma load_zones_keeps_scaled_copy_witness :
  exists zm',
    load_zones {| zones := triangle_zone;
                  scaled_zones := [ [(3, 5); (6, 0); (1, 4)]%Z ];
                  scale_factor := 3 / 4 |} degenerate_zones = inr zm' /\
    scaled_zones zm' = [ [(3, 5); (6, 0); (1, 4)]%Z ].
Proof.
  eexists. split; [reflexivity|].
  apply (load_zones_keeps_scaled_copy (fun _ _ => false)
           {| zones := triangle_zone;
              scaled_zones := [ [(3, 5); (6, 0); (1, 4)]%Z ];
              scale_factor := 3 / 4 |} _ degenerate_zones []).
  reflexivity.
Defined.


(* ================================================================== *)
(** ** Raw energy: the greedy matching *)
(* ================================================================== *)

Section RawEnergyFacts.

Variable norm : Q * Q -> Q.
Variable max_dist : Q.

(** X16. [calculate] returns 0.0 and stores the current skeletons when
    there is no previous skeleton (first call, or after [reset]) or no
    current one.  It fails in one case only: skeletons on both sides and a
    scale factor of zero raise ZeroDivisionError, after the current
    skeletons were stored.  Whenever it returns, the calculator holds the
    current skeletons and is otherwise unchanged. *)
Theorem calculate_outcomes (ec : EnergyCalculator)
  (current : list (Q * Q)) :
  (prev_skeletons ec = [] \/ current = [] ->
   calculate norm max_dist ec current = inr (0, stored ec current)) /\
  calculate norm max_dist (EnergyCalculator_reset ec) current
  = inr (0, stored (EnergyCalculator_reset ec) current) /\
  (prev_skeletons ec <> [] -> current <> [] ->
   ec_scale_factor ec == 0 ->
   calculate norm max_dist ec current
   = inl (Py.ZeroDivisionError, stored ec current)) /\
  (forall e ec', calculate norm max_dist ec current = inl (e, ec') ->
     e = Py.ZeroDivisionError /\ ec_scale_factor ec == 0 /\
     ec' = stored ec current) /\
  (forall raw ec', calculate norm max_dist ec current = inr (raw, ec') ->
     ec' = stored ec current).
Proof.
  unfold calculate, stored. split; [|split; [|split; [|split]]].
  - intros [H|H].
    + rewrite H. reflexivity.
    + rewrite H. destruct (prev_skeletons ec); reflexivity.
  - reflexivity.
  - intros Hp Hc Hs.
    destruct (prev_skeletons ec) as [|p ps]; [contradiction|].
    destruct current as [|c cs]; [contradiction|].
    assert (H0 : Qeq_bool (ec_scale_factor ec) 0 = true)
      by (apply Qeq_bool_iff; exact Hs).
    assert (H1 : Qeq_bool (ec_scale_factor ec) 1 = false).
    { destruct (Qeq_bool (ec_scale_factor ec) 1) eqn:E; [|reflexivity].
      apply Qeq_bool_iff in E. rewrite Hs in E. discriminate E. }
    rewrite H0, H1. reflexivity.
  - intros e ec'.
    destruct (prev_skeletons ec) as [|p ps]; [discriminate|].
    destruct current as [|c cs]; [discriminate|].
    destruct (Qeq_bool (ec_scale_factor ec) 1); [discriminate|]. simpl negb.
    cbv iota.
    destruct (Qeq_bool (ec_scale_factor ec) 0) eqn:E; [|discriminate].
    intro H. injection H as <- <-. apply Qeq_bool_iff in E.
    repeat split. exact E.
  - intros raw ec'.
    destruct (prev_skeletons ec) as [|p ps].
    { intro H. injection H as _ <-. reflexivity. }
    destruct current as [|c cs].
    { intro H. injection H as _ <-. reflexivity. }
    destruct (Qeq_bool (ec_scale_factor ec) 1); simpl negb; cbv iota.
    { intro H. injection H as _ <-. reflexivity. }
    destruct (Qeq_bool (ec_scale_factor ec) 0); [discriminate|].
    intro H. injection H as _ <-. reflexivity.
Qed.

Hypothesis norm_nonneg : forall v, 0 <= norm v.

(** A candidate the inner loop may hold: an unused index below [bound]
    with a distance that is not negative and below the ceiling. *)
Let candidate (used : list nat) (bound : nat) (best : option (Q * nat))
  : Prop :=
  match best with
  | None => True
  | Some (d, j) =>
      existsb (Nat.eqb j) used = false /\ (j < bound)%nat /\
      0 <= d /\ d < max_dist
  end.

Lemma existsb_eqb_sym (i : nat) (used : list nat) :
  existsb (Nat.eqb i) used = existsb (fun j => Nat.eqb j i) used.
Proof.
  induction used as [|u used IH]; simpl; [reflexivity|].
  rewrite IH, (Nat.eqb_sym i u). reflexivity.
Qed.

Lemma best_match_candidate (curr : Q * Q) (used : list nat) (bound : nat)
  (prevs : list (Q * Q)) :
  forall (i : nat) (best : option (Q * nat)),
  (i + List.length prevs <= bound)%nat ->
  candidate used bound best ->
  candidate used bound (best_match norm max_dist curr prevs i used best).
Proof.
  induction prevs as [|prev prevs IH]; intros i best Hb Hbest; simpl.
  - exact Hbest.
  - simpl in Hb.
    destruct (existsb (Nat.eqb i) used) eqn:Eu.
    + apply IH; [lia|exact Hbest].
    + destruct (Py.ltb (skeleton_dist norm curr prev) max_dist
                && match best with
                   | Some (min_dist, _) =>
                       Py.ltb (skeleton_dist norm curr prev) min_dist
                   | None => true
                   end) eqn:E.
      * apply IH; [lia|].
        apply andb_true_iff in E as [E _]. apply ltb_true in E.
        unfold candidate. repeat split.
        -- exact Eu.
        -- lia.
        -- apply norm_nonneg.
        -- exact E.
      * apply IH; [lia|exact Hbest].
Qed.

Lemma match_skeletons_bounds (prevs : list (Q * Q))
  (current : list (Q * Q)) :
  forall (total : Q) (used : list nat),
  NoDup used ->
  Forall (fun j => (j < List.length prevs)%nat) used ->
  0 <= total ->
  total <= inject_Z (Z.of_nat (List.length used)) * max_dist ->
  let r := match_skeletons norm max_dist current prevs total used in
  NoDup (snd r) /\
  Forall (fun j => (j < List.length prevs)%nat) (snd r) /\
  0 <= fst r /\
  fst r <= inject_Z (Z.of_nat (List.length (snd r))) * max_dist /\
  (List.length (snd r) <= List.length used + List.length current)%nat.
Proof.
  induction current as [|curr current IH]; intros total used Hnd Hlt H0 Hle;
    simpl.
  - repeat split; try assumption. lia.
  - assert (Hc := best_match_candidate curr used (List.length prevs)
                    prevs 0 None ltac:(simpl; lia) I).
    destruct (best_match norm max_dist curr prevs 0 used None)
      as [[d j]|].
    + destruct Hc as (Hu & Hj & Hd0 & HdM).
      assert (Hnotin : ~ In j used).
      { intro Hin. rewrite existsb_eqb_sym in Hu.
        assert (existsb (fun k => Nat.eqb k j) used = true).
        { apply existsb_exists. exists j. split; [exact Hin|].
          apply Nat.eqb_refl. }
        congruence. }
      destruct (IH (total + d) (j :: used)) as (G1 & G2 & G3 & G4 & G5).
      * constructor; assumption.
      * constructor; assumption.
      * lra.
      * simpl List.length. rewrite Nat2Z.inj_succ. unfold Z.succ.
        rewrite inject_Z_plus. change (inject_Z 1) with 1. lra.
      * repeat split; try assumption. simpl in G5. lia.
    + destruct (IH total used Hnd Hlt H0 Hle) as (G1 & G2 & G3 & G4 & G5).
      repeat split; try assumption. lia.
Qed.

Lemma nodup_below_length (used : list nat) (n : nat) :
  NoDup used -> Forall (fun j => (j < n)%nat) used ->
  (List.length used <= n)%nat.
Proof.
  intros Hnd Hlt.
  assert (Hincl : incl used (seq 0 n)).
  { intros j Hin. rewrite Forall_forall in Hlt.
    apply in_seq. specialize (Hlt j Hin). lia. }
  assert (H := NoDup_incl_length Hnd Hincl).
  rewrite length_seq in H. exact H.
Qed.

(** X17. With distances that are not negative, a match ceiling that is not
    negative and a positive scale factor, [calculate] returns a raw energy
    that is not negative and that, brought back to the processed
    resolution, is at most the ceiling times the number of skeletons that
    can be paired (the smaller of the two counts): every previous skeleton
    is used at most once and every matched distance is below the
    ceiling. *)
Theorem calculate_bounded (ec : EnergyCalculator)
  (current : list (Q * Q)) :
  0 <= max_dist ->
  0 < ec_scale_factor ec ->
  exists raw ec',
    calculate norm max_dist ec current = inr (raw, ec') /\
    prev_skeletons ec' = current /\
    0 <= raw /\
    raw * ec_scale_factor ec
    <= inject_Z (Z.min (Py.len current) (Py.len (prev_skeletons ec)))
       * max_dist.
Proof.
  intros HM Hs. unfold calculate, Py.len.
  destruct (prev_skeletons ec) as [|p ps] eqn:Ep.
  { eexists. eexists. split; [reflexivity|]. cbn [prev_skeletons].
    split; [reflexivity|]. split; [lra|].
    simpl List.length. rewrite Z.min_r by lia.
    change (inject_Z (Z.of_nat 0)) with 0. lra. }
  destruct current as [|c cs] eqn:Ec.
  { eexists. eexists. split; [reflexivity|]. cbn [prev_skeletons].
    split; [reflexivity|]. split; [lra|].
    simpl List.length. rewrite Z.min_l by lia.
    change (inject_Z (Z.of_nat 0)) with 0. lra. }
  rewrite <- Ec.
  assert (H00 : 0 <= inject_Z (Z.of_nat (List.length (@nil nat))) * max_dist).
  { change (inject_Z (Z.of_nat (List.length (@nil nat)))) with 0. lra. }
  destruct (match_skeletons_bounds (p :: ps) current 0 []
              (NoDup_nil _) (Forall_nil _) (Qle_refl 0) H00)
    as (G1 & G2 & G3 & G4 & G5).
  set (r := match_skeletons norm max_dist current (p :: ps) 0 []) in *.
  assert (Hused := nodup_below_length _ _ G1 G2).
  simpl List.length in G5.
  assert (Hcount : inject_Z (Z.of_nat (List.length (snd r))) * max_dist
                   <= inject_Z (Z.min (Z.of_nat (List.length current))
                                      (Z.of_nat (List.length (p :: ps))))
                      * max_dist).
  { apply Qmult_le_compat_r; [|exact HM].
    rewrite <- Zle_Qle. lia. }
  assert (Htotal : fst r
                   <= inject_Z (Z.min (Z.of_nat (List.length current))
                                      (Z.of_nat (List.length (p :: ps))))
                      * max_dist) by lra.
  destruct (Qeq_bool (ec_scale_factor ec) 1) eqn:E1; simpl negb; cbv iota.
  - apply Qeq_bool_iff in E1.
    eexists. eexists. split; [reflexivity|]. cbn [prev_skeletons].
    split; [reflexivity|]. split; [exact G3|].
    rewrite E1, Qmult_1_r. exact Htotal.
  - destruct (Qeq_bool (ec_scale_factor ec) 0) eqn:E0.
    { apply Qeq_bool_iff in E0. exfalso. lra. }
    eexists. eexists. split; [reflexivity|]. cbn [prev_skeletons].
    split; [reflexivity|]. split.
    + apply Qmult_le_0_compat; [exact G3|].
      apply Qlt_le_weak. unfold Qdiv. rewrite Qmult_1_l.
      apply Qinv_lt_0_compat. exact Hs.
    + setoid_replace (fst r * (1 / ec_scale_factor ec) * ec_scale_factor ec)
        with (fst r) by (field; lra).
      exact Htotal.
Qed.

(** X18. With one previous and one current skeleton and a scale factor that
    is not zero, the raw energy, brought back to the processed resolution,
    is the distance between the two when it is below the match ceiling,
    and zero otherwise. *)
Theorem calculate_single_pair (ec : EnergyCalculator) (prev curr : Q * Q) :
  prev_skeletons ec = [prev] ->
  ~ ec_scale_factor ec == 0 ->
  exists raw,
    calculate norm max_dist ec [curr] = inr (raw, stored ec [curr]) /\
    raw * ec_scale_factor ec
    == if Py.ltb (skeleton_dist norm curr prev) max_dist
       then skeleton_dist norm curr prev else 0.
Proof.
  intros Hp Hs. unfold calculate, stored. rewrite Hp. simpl.
  assert (E0 : Qeq_bool (ec_scale_factor ec) 0 = false).
  { destruct (Qeq_bool (ec_scale_factor ec) 0) eqn:E; [|reflexivity].
    apply Qeq_bool_iff in E. contradiction. }
  destruct (Py.ltb (skeleton_dist norm curr prev) max_dist) eqn:Ed;
    simpl; destruct (Qeq_bool (ec_scale_factor ec) 1) eqn:E1; simpl;
    rewrite ?E0; eexists; (split; [reflexivity|]);
    try (apply Qeq_bool_iff in E1; rewrite E1); try field; try lra;
    exact Hs.
Qed.

End RawEnergyFacts.

Lemma calculate_outcomes_witness :
  calculate axis_norm 100
    (EnergyCalculator_init DEFAULT_CONFIG) [(1, 2)]
  = inr (0, {| ec_config := DEFAULT_CONFIG;
               prev_skeletons := [(1, 2)];
               smooth_energy := 0;
               ec_scale_factor := 1 |}).
Proof.
  apply (proj1 (calculate_outcomes axis_norm 100
                  (EnergyCalculator_init DEFAULT_CONFIG) [(1, 2)])).
  left. reflexivity.
Defined.

Lemma axis_norm_nonneg (v : Q * Q) : 0 <= axis_norm v.
Proof.
  unfold axis_norm.
  generalize (Qabs_nonneg (fst v)) (Qabs_nonneg (snd v)). lra.
Qed.

Lemma calculate_bounded_witness :
  exists raw ec',
    calculate axis_norm 100
      {| ec_config := DEFAULT_CONFIG; prev_skeletons := [(0, 0); (50, 0)];
         smooth_energy := 0; ec_scale_factor := 1 # 3 |}
      [(3, 0); (50, 4)] = inr (raw, ec') /\
    0 <= raw.
Proof.
  destruct (calculate_bounded axis_norm 100 axis_norm_nonneg
              {| ec_config := DEFAULT_CONFIG;
                 prev_skeletons := [(0, 0); (50, 0)];
                 smooth_energy := 0; ec_scale_factor := 1 # 3 |}
              [(3, 0); (50, 4)] ltac:(discriminate) ltac:(reflexivity))
    as (raw & ec' & H1 & _ & H2 & _).
  exists raw, ec'. split; assumption.
Defined.

Lemma calculate_single_pair_witness :
  exists raw,
    calculate axis_norm 100
      {| ec_config := DEFAULT_CONFIG; prev_skeletons := [(0, 0)];
         smooth_energy := 0; ec_scale_factor := 1 # 3 |} [(3, 0)]
    = inr (raw, {| ec_config := DEFAULT_CONFIG; prev_skeletons := [(3, 0)];
                   smooth_energy := 0; ec_scale_factor := 1 # 3 |}) /\
    raw * (1 # 3) == 3.
Proof.
  destruct (calculate_single_pair axis_norm 100
              {| ec_config := DEFAULT_CONFIG; prev_skeletons := [(0, 0)];
                 smooth_energy := 0; ec_scale_factor := 1 # 3 |}
              (0, 0) (3, 0) eq_refl ltac:(discriminate))
    as (raw & H1 & H2).
  exists raw. split; [exact H1|]. rewrite H2. reflexivity.
Defined.

(* ================================================================== *)
(** ** Calibration, clamping and smoothing: further facts *)
(* ================================================================== *)




(** X19. [clamp] never returns less than its lower bound, whatever the
    bounds; with bounds in the wrong order (max below min) it returns the
    lower bound for every value; and clamping a clamped value changes
    nothing. *)
Theorem clamp_edge_cases (value min_val max_val : Q) :
  min_val <= clamp value min_val max_val /\
  (max_val < min_val -> clamp value min_val max_val = min_val) /\
  clamp (clamp value min_val max_val) min_val max_val
  == clamp value min_val max_val.
Proof.
  unfold clamp, Py.max, Py.min. split; [|split].
  - case_ltb max_val value;
      [case_ltb min_val max_val | case_ltb min_val value]; lra.
  - intro H. case_ltb max_val value.
    + case_ltb min_val max_val; [exfalso; lra|reflexivity].
    + case_ltb min_val value; [exfalso; lra|reflexivity].
  - repeat (match goal with
            | |- context [Py.ltb ?a ?b] => is_var a; is_var b; case_ltb a b
            end; cbv iota);
      lra.
Qed.

Lemma clamp_edge_cases_witness : clamp 75 60 40 = 60.
Proof.
  apply (proj1 (proj2 (clamp_edge_cases 75 60 40))). reflexivity.
Defined.

(** X20. When the two threshold bounds are equal, as in the default
    configuration (60 and 60), the calibrated threshold is that bound
    whatever the baseline readings and the sensitivity: the readings have
    no effect. *)
Theorem calculate_dynamic_threshold_fixed
  (readings : list Q) (sens bound : Q) :
  calculate_dynamic_threshold readings sens bound bound == bound.
Proof.
  unfold calculate_dynamic_threshold.
  rewrite clamp_is_clamp_to_interval by apply Qle_refl.
  generalize (clamp_to_interval_bounds
                (match readings with
                 | [] => 10
                 | _ :: _ =>
                     Py.sum readings / inject_Z (Py.len readings)
                 end + sens) bound bound (Qle_refl bound)).
  intros [H1 H2]. apply Qle_antisym; assumption.
Qed.







(* ================================================================== *)
(** ** Zone scaling and configuration checks: further facts *)
(* ================================================================== *)

Lemma int_comp (x y : Q) : x == y -> Py.int x = Py.int y.
Proof.
  intro H. destruct (Qlt_le_dec x 0) as [Hx|Hx].
  - rewrite (int_nonpos x), (int_nonpos y) by lra.
    unfold Qceiling. f_equal. apply Qfloor_comp. rewrite H. reflexivity.
  - rewrite (int_nonneg x), (int_nonneg y) by lra.
    apply Qfloor_comp. exact H.
Qed.

Lemma int_inject_Z (v : Z) : Py.int (inject_Z v) = v.
Proof. unfold Py.int. simpl. apply Z.quot_1_r. Qed.

(** X23. [scale_zones] always scales the loaded zones, never the scaled
    copy: scaling a second time gives the same manager as scaling once
    with the last pair of widths, so truncation does not build up. *)
Theorem scale_zones_from_originals (zm zm1 : ZoneManager) (w1 t1 w2 t2 : Z) :
  scale_zones zm w1 t1 = inr zm1 ->
  scale_zones zm1 w2 t2 = scale_zones zm w2 t2.
Proof.
  unfold scale_zones. destruct (w1 =? 0)%Z; [discriminate|].
  intro H. injection H as <-. cbn [zones]. reflexivity.
Qed.

Lemma scale_zones_from_originals_witness :
  exists zm1,
    scale_zones {| zones := triangle_zone; scaled_zones := [];
                   scale_factor := 1 |} 1920 640 = inr zm1 /\
    scale_zones zm1 4 3
    = scale_zones {| zones := triangle_zone; scaled_zones := [];
                     scale_factor := 1 |} 4 3.
Proof.
  eexists. split; [reflexivity|].
  apply (scale_zones_from_originals
           {| zones := triangle_zone; scaled_zones := [];
              scale_factor := 1 |} _ 1920 640 4 3).
  reflexivity.
Defined.

Lemma astype_identity (v : Z) (ratio : Q) :
  ratio == 1 -> in_int32 v = true ->
  astype_int32 (inject_Z v * ratio) = v.
Proof.
  intros Hr Hv. unfold astype_int32.
  rewrite (int_comp (inject_Z v * ratio) (inject_Z v))
    by (rewrite Hr; ring).
  rewrite int_inject_Z, Hv. reflexivity.
Qed.

Lemma scale_zone_identity (ratio : Q) (zone : Zone) :
  ratio == 1 -> zone_in_int32 zone = true -> scale_zone ratio zone = zone.
Proof.
  intros Hr. unfold zone_in_int32, scale_zone.
  induction zone as [|[x y] zone IH]; intro H; simpl in *.
  - reflexivity.
  - apply andb_true_iff in H as [Hxy Hrest].
    apply andb_true_iff in Hxy as [Hx Hy].
    rewrite (astype_identity x ratio Hr Hx), (astype_identity y ratio Hr Hy).
    rewrite (IH Hrest). reflexivity.
Qed.

(** X24. Scaling to the same width changes nothing: for zones whose
    coordinates fit in 32 bits (as every loaded zone does) and a non-zero
    width, the scaled copy is equal to the loaded zones. *)
Theorem scale_zones_same_width (zm : ZoneManager) (w : Z) :
  w <> 0%Z ->
  forallb zone_in_int32 (zones zm) = true ->
  exists zm',
    scale_zones zm w w = inr zm' /\
    scaled_zones zm' = zones zm /\ zones zm' = zones zm /\
    scale_factor zm' == 1.
Proof.
  intros Hw Hall. unfold scale_zones.
  destruct (w =? 0)%Z eqn:E; [apply Z.eqb_eq in E; contradiction|].
  assert (Hr : inject_Z w / inject_Z w == 1).
  { field. intro H. apply Hw. 
    unfold Qeq in H. simpl in H. lia. }
  eexists. split; [reflexivity|]. cbn [scaled_zones zones scale_factor].
  split; [|split; [reflexivity|exact Hr]].
  induction (zones zm) as [|zone zs IH]; simpl in *; [reflexivity|].
  apply andb_true_iff in Hall as [Hz Hrest].
  rewrite (scale_zone_identity _ zone Hr Hz), (IH Hrest). reflexivity.
Qed.

Lemma scale_zones_same_width_witness :
  exists zm',
    scale_zones {| zones := triangle_zone; scaled_zones := [];
                   scale_factor := 1 |} 640 640 = inr zm' /\
    scaled_zones zm' = triangle_zone.
Proof.
  destruct (scale_zones_same_width
              {| zones := triangle_zone; scaled_zones := [];
                 scale_factor := 1 |} 640 ltac:(discriminate)
              ltac:(reflexivity)) as (zm' & H1 & H2 & _).
  exists zm'. split; assumption.
Defined.






(** X26. [__post_init__] accepts a configuration exactly when the frame
    rate is positive, skip_frames is not negative, the batch size is at
    least 1, the width at least 100, the smoothing factor in (0, 1] and
    the minimum threshold at most the maximum; it returns the
    configuration unchanged, and otherwise raises a ValueError. *)
Theorem post_init_accepts_in_range (c : Config) :
  (config_in_range c -> post_init c = inr c) /\
  (forall c', post_init c = inr c' -> c' = c /\ config_in_range c) /\
  (forall e, post_init c = inl e -> exists msg, e = Py.ValueError msg).
Proof.
  unfold post_init, config_in_range.
  case_leb (process_fps c) 0.
  { split; [intros (H & _); exfalso; lra|].
    split; [intros c' H; discriminate H|].
    intros e0 H. injection H as <-. eexists. reflexivity. }
  destruct (Z.ltb_spec (skip_frames c) 0).
  { split; [intros (_ & H' & _); exfalso; lia|].
    split; [intros c' H'; discriminate H'|].
    intros e0 H'. injection H' as <-. eexists. reflexivity. }
  destruct (Z.ltb_spec (inference_batch_size c) 1).
  { split; [intros (_ & _ & H' & _); exfalso; lia|].
    split; [intros c' H'; discriminate H'|].
    intros e0 H'. injection H' as <-. eexists. reflexivity. }
  destruct (Z.ltb_spec (process_width c) 100).
  { split; [intros (_ & _ & _ & H' & _); exfalso; lia|].
    split; [intros c' H'; discriminate H'|].
    intros e0 H'. injection H' as <-. eexists. reflexivity. }
  case_ltb 0 (energy_smoothing_factor c);
    case_leb (energy_smoothing_factor c) 1; simpl;
    try (split; [intros (_ & _ & _ & _ & Ha & Hb & _); exfalso; lra|];
         split; [intros c' H'; discriminate H'|];
         intros e0 H'; injection H' as <-; eexists; reflexivity).
  case_ltb (max_dynamic_threshold c) (min_dynamic_threshold c).
  { split; [intros (_ & _ & _ & _ & _ & _ & H'); exfalso; lra|].
    split; [intros c' H'; discriminate H'|].
    intros e0 H'. injection H' as <-. eexists. reflexivity. }
  split; [reflexivity|]. split.
  - intros c' H'. injection H' as <-. repeat split; assumption.
  - intros e0 H'. discriminate H'.
Qed.

Lemma post_init_accepts_in_range_witness :
  post_init DEFAULT_CONFIG = inr DEFAULT_CONFIG.
Proof.
  apply (proj1 (post_init_accepts_in_range DEFAULT_CONFIG)).
  unfold config_in_range. simpl.
  repeat split; try reflexivity; discriminate.
Defined.

(* ================================================================== *)
(** ** The clip dictionary *)
(* ================================================================== *)

Lemma round_half_even_close (x : Q) :
  Qabs (inject_Z (round_half_even x) - x) <= 1 # 2.
Proof.
  unfold round_half_even.
  assert (Hf := Qfloor_le x). assert (Hc := Qlt_floor x).
  rewrite inject_Z_plus in Hc. change (inject_Z 1) with 1 in Hc.
  set (f := Qfloor x) in *.
  apply Qabs_Qle_condition.
  case_ltb (x - inject_Z f) (1 # 2).
  - split; lra.
  - case_ltb (1 # 2) (x - inject_Z f).
    + rewrite inject_Z_plus. change (inject_Z 1) with 1. split; lra.
    + destruct (Z.even f).
      * split; lra.
      * rewrite inject_Z_plus. change (inject_Z 1) with 1. split; lra.
Qed.

Lemma round_half_even_nonneg (x : Q) :
  0 <= x -> (0 <= round_half_even x)%Z.
Proof.
  intro H. unfold round_half_even.
  assert (Hf : (0 <= Qfloor x)%Z).
  { change 0%Z with (Qfloor 0). apply Qfloor_resp_le. exact H. }
  destruct (Py.ltb (x - inject_Z (Qfloor x)) (1 # 2)); [exact Hf|].
  destruct (Py.ltb (1 # 2) (x - inject_Z (Qfloor x))); [lia|].
  destruct (Z.even (Qfloor x)); lia.
Qed.

Lemma round3_grid (x : Q) :
  round3 x * 1000 == inject_Z (round_half_even (x * 1000)).
Proof. unfold round3. field. Qed.

Lemma round3_close (x : Q) : Qabs (round3 x - x) <= 1 # 2000.
Proof.
  assert (H := round_half_even_close (x * 1000)).
  rewrite <- round3_grid in H.
  apply Qabs_Qle_condition in H. apply Qabs_Qle_condition.
  destruct H as [H1 H2]. split; lra.
Qed.

Lemma round3_nonneg (x : Q) : 0 <= x -> 0 <= round3 x.
Proof.
  intro H.
  assert (Hn : (0 <= round_half_even (x * 1000))%Z).
  { apply round_half_even_nonneg. lra. }
  rewrite Zle_Qle in Hn. rewrite <- round3_grid in Hn.
  change (inject_Z 0) with 0 in Hn. lra.
Qed.

(** X27. [to_dict] lists the six keys in order, copies the tag, the
    confidence and the integer peak energy, and rounds start, end and
    duration to the millisecond: each is within 0.0005 of the exact value.
    The duration is rounded on its own, so it can differ from the
    difference of the rounded end and start, but by no more than 0.001;
    and it is not negative when the clip does not end before it starts. *)
Theorem to_dict_rounds (clip : ClipInfo) :
  let s := round3 (start clip) in
  let e := round3 (end_ clip) in
  let d := round3 (end_ clip - start clip) in
  to_dict clip
  = [ ("start"%string, VFloat s); ("end"%string, VFloat e);
      ("duration"%string, VFloat d); ("tag"%string, VStr (tag clip));
      ("confidence"%string, VStr (confidence clip));
      ("peak_energy"%string, VInt (peak_energy clip)) ] /\
  dict_get (to_dict clip) "duration" = Some (VFloat d) /\
  dict_get (to_dict clip) "keep" = None /\
  Qabs (s - start clip) <= 1 # 2000 /\
  Qabs (e - end_ clip) <= 1 # 2000 /\
  Qabs (d - (end_ clip - start clip)) <= 1 # 2000 /\
  Qabs (d - (e - s)) <= 1 # 1000 /\
  (start clip <= end_ clip -> 0 <= d).
Proof.
  cbv zeta. split; [reflexivity|]. split; [reflexivity|].
  split; [reflexivity|].
  split; [apply round3_close|]. split; [apply round3_close|].
  split; [apply round3_close|]. split.
  - assert (Hs := round3_close (start clip)).
    assert (He := round3_close (end_ clip)).
    assert (Hd := round3_close (end_ clip - start clip)).
    assert (Gs := round3_grid (start clip)).
    assert (Ge := round3_grid (end_ clip)).
    assert (Gd := round3_grid (end_ clip - start clip)).
    set (s := round3 (start clip)) in *.
    set (e := round3 (end_ clip)) in *.
    set (d := round3 (end_ clip - start clip)) in *.
    set (ks := round_half_even (start clip * 1000)) in *.
    set (ke := round_half_even (end_ clip * 1000)) in *.
    set (kd := round_half_even ((end_ clip - start clip) * 1000)) in *.
    apply Qabs_Qle_condition in Hs, He, Hd.
    assert (Hk : (d - (e - s)) * 1000 == inject_Z (kd - (ke - ks))).
    { unfold Z.sub.
      repeat (rewrite inject_Z_plus || rewrite inject_Z_opp).
      clearbody s e d ks ke kd. lra. }
    clearbody s e d ks ke kd.
    assert (Hlt : inject_Z (kd - (ke - ks)) < inject_Z 2).
    { rewrite <- Hk. change (inject_Z 2) with 2. lra. }
    assert (Hgt : inject_Z (-2) < inject_Z (kd - (ke - ks))).
    { rewrite <- Hk. change (inject_Z (-2)) with (-2). lra. }
    rewrite <- Zlt_Qlt in Hlt, Hgt.
    assert (Hle : inject_Z (kd - (ke - ks)) <= inject_Z 1)
      by (rewrite <- Zle_Qle; lia).
    assert (Hge : inject_Z (-1) <= inject_Z (kd - (ke - ks)))
      by (rewrite <- Zle_Qle; lia).
    rewrite <- Hk in Hle, Hge.
    change (inject_Z 1) with 1 in Hle. change (inject_Z (-1)) with (-1) in Hge.
    apply Qabs_Qle_condition. split; lra.
  - intro H. apply round3_nonneg. lra.
Qed.

Lemma to_dict_rounds_witness :
  0 <= round3 (end_ (mkClipInfo 0 6.5 "Rally" "High" 150)
               - start (mkClipInfo 0 6.5 "Rally" "High" 150)).
Proof.
  apply (proj2 (proj2 (proj2 (proj2 (proj2 (proj2 (proj2
           (to_dict_rounds (mkClipInfo 0 6.5 "Rally" "High" 150))))))))).
  discriminate.
Defined.

(* ================================================================== *)
(** ** The engine over a video *)
(* ================================================================== *)

Lemma update_init_below_minimum (cfg : Config) (fps : Q)
  (t : Q) (z : Z) (e : Q) (k s : Z) :
  (z < min_occupied_zones cfg)%Z ->
  update (StateMachine_init cfg fps) t z e k s
  = (None, StateMachine_init cfg fps).
Proof.
  intro Hz. unfold StateMachine_init, StateMachineContext_init.
  update_paths; try lia; reflexivity.
Qed.

Lemma check_occupancy_no_ankles (_point_in_zone : Q * Q -> Zone -> bool)
  (zm : ZoneManager) :
  active_count (check_occupancy _point_in_zone zm []) = 0%Z.
Proof.
  rewrite check_occupancy_count, check_occupancy_flags. simpl.
  unfold count_true. induction (checked_zones zm) as [|z zs IH];
    simpl; [reflexivity|exact IH].
Qed.

Lemma calculate_returns_stored (norm : Q * Q -> Q) (max_dist : Q)
  (ec : EnergyCalculator) (current : list (Q * Q)) (raw : Q)
  (ec' : EnergyCalculator) :
  calculate norm max_dist ec current = inr (raw, ec') ->
  ec' = stored ec current.
Proof.
  unfold calculate, stored.
  destruct (prev_skeletons ec) as [|p ps].
  { intro H. injection H as _ <-. reflexivity. }
  destruct current as [|c cs].
  { intro H. injection H as _ <-. reflexivity. }
  destruct (Qeq_bool (ec_scale_factor ec) 1); simpl negb; cbv iota.
  { intro H. injection H as _ <-. reflexivity. }
  destruct (Qeq_bool (ec_scale_factor ec) 0); [discriminate|].
  intro H. injection H as _ <-. reflexivity.
Qed.

Lemma calculate_raises_on_zero_scale (norm : Q * Q -> Q) (max_dist : Q)
  (ec : EnergyCalculator) (current : list (Q * Q)) (e : Py.exn)
  (ec' : EnergyCalculator) :
  calculate norm max_dist ec current = inl (e, ec') ->
  ec_scale_factor ec == 0.
Proof.
  unfold calculate.
  destruct (prev_skeletons ec) as [|p ps]; [discriminate|].
  destruct current as [|c cs]; [discriminate|].
  destruct (Qeq_bool (ec_scale_factor ec) 1); [discriminate|]. simpl negb.
  cbv iota.
  destruct (Qeq_bool (ec_scale_factor ec) 0) eqn:E; [|discriminate].
  intros _. apply Qeq_bool_iff in E. exact E.
Qed.


Section PipelineFacts.

Variable _point_in_zone : Q * Q -> Zone -> bool.
Variable norm : Q * Q -> Q.
Variable max_dist : Q.

(** X28. A video in which no ankle is ever detected yields no clip: with a
    positive minimum of occupied zones and a scale factor that is not
    zero, the loop of [process_video] ends without an exception and leaves
    a new state machine exactly as it was, whatever the skeletons do. *)
Theorem no_ankles_no_clips (cfg : Config) (fps : Q)
  (items : list (Q * DetectionResult)) (logic_step : Z) :
  forall eng : Engine,
  (1 <= min_occupied_zones cfg)%Z ->
  ~ ec_scale_factor (energy_calc eng) == 0 ->
  state_machine eng = StateMachine_init cfg fps ->
  forallb (fun item => match ankles (snd item) with
                       | [] => true
                       | _ :: _ => false
                       end) items = true ->
  exists eng',
    process_detections _point_in_zone norm max_dist eng items logic_step
    = inr eng' /\
    state_machine eng' = StateMachine_init cfg fps /\
    get_clips (state_machine eng') = [].
Proof.
  induction items as [|[ts det] items IH]; intros eng Hmin Hs Hsm Hall.
  - exists eng. split; [reflexivity|]. split; [exact Hsm|].
    rewrite Hsm. reflexivity.
  - simpl in Hall. apply andb_true_iff in Hall as [Ha Hrest].
    destruct (ankles det) as [|a l] eqn:Ea; [|discriminate Ha].
    simpl. unfold process_detection. rewrite Ea.
    destruct (calculate norm max_dist (energy_calc eng) (skeletons det))
      as [[e ec']|[raw ec']] eqn:Ec.
    + exfalso. apply Hs.
      exact (calculate_raises_on_zero_scale _ _ _ _ _ _ Ec).
    + assert (Hok := calculate_returns_stored _ _ _ _ _ _ Ec).
      destruct (update_smooth ec' raw) as [smooth ec''] eqn:Eu.
      assert (Hcount : active_count
                         (check_occupancy _point_in_zone (zone_mgr eng) [])
                       = 0%Z).
      { apply check_occupancy_no_ankles. }
      rewrite Hcount, Hsm.
      rewrite (update_init_below_minimum cfg fps ts 0 smooth
                 (Py.len (skeletons det)) logic_step) by lia.
      apply IH; try assumption.
      * cbn [energy_calc]. unfold update_smooth in Eu.
        injection Eu as _ <-. cbn [ec_scale_factor].
        rewrite Hok. exact Hs.
      * reflexivity.
Qed.

Hypothesis norm_nonneg : forall v, 0 <= norm v.


End PipelineFacts.

Lemma no_ankles_no_clips_witness :
  exists eng',
    process_detections (fun _ _ => true) axis_norm 100
      {| zone_mgr := ZoneManager_init;
         energy_calc := EnergyCalculator_init DEFAULT_CONFIG;
         state_machine := StateMachine_init DEFAULT_CONFIG 30 |}
      [ (1 # 10, mkDetectionResult [(0, 0)] []);
        (2 # 10, mkDetectionResult [(30, 0)] []) ] 3
    = inr eng' /\
    state_machine eng' = StateMachine_init DEFAULT_CONFIG 30.
Proof.
  destruct (no_ankles_no_clips (fun _ _ => true) axis_norm 100
              DEFAULT_CONFIG 30
              [ (1 # 10, mkDetectionResult [(0, 0)] []);
                (2 # 10, mkDetectionResult [(30, 0)] []) ] 3
              {| zone_mgr := ZoneManager_init;
                 energy_calc := EnergyCalculator_init DEFAULT_CONFIG;
                 state_machine := StateMachine_init DEFAULT_CONFIG 30 |}
              ltac:(discriminate) ltac:(discriminate) eq_refl eq_refl)
    as (eng' & H1 & H2 & _).
  exists eng'. split; assumption.
Defined.

